(** * A fixed-capacity block storage device: block_store.c

    Shallow embedding of [src/block_store.c] and verification of the
    statements its specification makes about it.

    Conventions.
    - [size_t] values are integers of [Z], never negative in a call;
      [SIZE_MAX] is [2^64 - 1].
    - A pointer that may be [NULL] is an [option]; the pointee is passed in
      and handed back explicitly (state passing), since every function
      works on the device through [block_store_t *const bs].
    - A C operation without defined behaviour (indexing [bmp] outside its
      256 entries, dereferencing a [NULL] entry) is the outcome [Undefined].
    - Bytes are integers in [0, 256); stores into [uint8_t] are reduced
      modulo 256.
    - [malloc] does not fail; freeing memory ([bitmap_destroy], [free]) has
      no counterpart in the model. *)

From Stdlib Require Import ZArith Lia Bool.
From stdpp Require Import base list strings gmap.

Local Open Scope Z_scope.

(** ** Outcomes of C operations *)

Inductive outcome (A : Type) : Type :=
| Done (a : A)
| Undefined.
Arguments Done {A} a.
Arguments Undefined {A}.

(** Sequencing: an undefined step makes the whole computation undefined. *)
#[global] Instance outcome_bind : MBind outcome :=
  fun A B (k : A -> outcome B) (m : outcome A) =>
    match m with
    | Done a => k a
    | Undefined => Undefined
    end.

Definition SIZE_MAX : Z := 18446744073709551615.

(** [memcpy(dst, src, n)]: the first [n] bytes of [dst] become the first
    [n] bytes of [src]; the rest of [dst] is kept. *)
Definition memcpy (dst src : list Z) (n : Z) : list Z :=
  take (Z.to_nat n) src ++ drop (Z.to_nat n) dst.

(** ** The bitmap library *)

Module Bitmap.

(** Modelled from the spec: [include/bitmap.h] and its implementation are
    not among the sources.  The specification treats the bitmap as an opaque
    fixed-size bit vector with set, reset, test, find-first-zero,
    export-to-bytes and import-from-bytes.  The model is a bit count with
    the byte array that export hands out; bit [k] is bit [k mod 8] of byte
    [k div 8], the layout under which import and export are plain copies. *)
Record bitmap_t : Type := { bit_count : Z; data : list Z }.

Definition byte_index (bit : Z) : nat := Z.to_nat (Z.shiftr bit 3).
Definition bit_mask (bit : Z) : Z := Z.shiftl 1 (Z.land bit 7).

(** Modelled from the spec: [bitmap_create(n_bits)], a zeroed bitmap of
    [n_bits] bits, [NULL] when no bit is asked for. *)
Definition bitmap_create (n_bits : Z) : option bitmap_t :=
  if n_bits <=? 0 then None
  else Some {| bit_count := n_bits;
               data := replicate (Z.to_nat ((n_bits + 7) / 8)) 0 |}.

(** Modelled from the spec: [bitmap_set], [data[bit >> 3] |= 1 << (bit & 7)]. *)
Definition bitmap_set (b : bitmap_t) (bit : Z) : bitmap_t :=
  {| bit_count := bit_count b;
     data := alter (fun x => Z.lor x (bit_mask bit) mod 256)
                   (byte_index bit) (data b) |}.

(** Modelled from the spec: [bitmap_reset], [data[bit >> 3] &= ~(1 << (bit & 7))]. *)
Definition bitmap_reset (b : bitmap_t) (bit : Z) : bitmap_t :=
  {| bit_count := bit_count b;
     data := alter (fun x => Z.land x (Z.lnot (bit_mask bit)) mod 256)
                   (byte_index bit) (data b) |}.

(** Modelled from the spec: [bitmap_test], [data[bit >> 3] & (1 << (bit & 7))]
    as a truth value. *)
Definition bitmap_test (b : bitmap_t) (bit : Z) : bool :=
  match data b !! byte_index bit with
  | Some x => negb (Z.land x (bit_mask bit) =? 0)
  | None => false
  end.

(** The scan of find-first-zero: [for (; r < bit_count && test(r); ++r)]. *)
Fixpoint ffz_scan (b : bitmap_t) (fuel : nat) (r : Z) : Z :=
  match fuel with
  | O => r
  | S fuel' =>
      if (r <? bit_count b) && bitmap_test b r
      then ffz_scan b fuel' (r + 1)
      else r
  end.

(** Modelled from the spec: [bitmap_ffz], the lowest clear bit, [SIZE_MAX]
    when every bit is set. *)
Definition bitmap_ffz (b : bitmap_t) : Z :=
  let r := ffz_scan b (Z.to_nat (bit_count b)) 0 in
  if r =? bit_count b then SIZE_MAX else r.

(** Modelled from the spec: [bitmap_export], the bytes of the bitmap. *)
Definition bitmap_export (b : bitmap_t) : list Z := data b.

(** Modelled from the spec: [bitmap_import(n_bits, bytes)], a bitmap holding
    a copy of the first [ceil(n_bits / 8)] bytes; [NULL] when [bytes] is
    [NULL] or no bit is asked for. *)
Definition bitmap_import (n_bits : Z) (bytes : option (list Z)) : option bitmap_t :=
  match bytes with
  | None => None
  | Some src =>
      match bitmap_create n_bits with
      | None => None
      | Some b =>
          Some {| bit_count := bit_count b;
                  data := memcpy (data b) src ((n_bits + 7) / 8) |}
      end
  end.

End Bitmap.
Import Bitmap.

(** ** The device *)

(** [typedef struct block_store { bitmap_t *bmp[256]; } block_store_t;] *)
Record block_store_t : Type := { bmp : list (option bitmap_t) }.

(** [*(bs->bmp[i])]: undefined outside the array and on a [NULL] entry. *)
Definition deref (s : block_store_t) (i : Z) : outcome bitmap_t :=
  if i <? 0 then Undefined
  else match bmp s !! Z.to_nat i with
       | Some (Some b) => Done b
       | _ => Undefined
       end.

(** [bs->bmp[i] = p], also the effect of updating [*(bs->bmp[i])] in place. *)
Definition store (s : block_store_t) (i : Z) (p : option bitmap_t) : block_store_t :=
  {| bmp := <[Z.to_nat i := p]> (bmp s) |}.

(** The loop of [block_store_create]: one bitmap of 2048 bits per block. *)
Fixpoint create_loop (n : nat) (i : Z) (s : block_store_t) : option block_store_t :=
  match n with
  | O => Some s
  | S n' =>
      match bitmap_create 2048 with
      | None => None
      | Some b => create_loop n' (i + 1) (store s i (Some b))
      end
  end.

(** [block_store_create]: the 256 pointers of the new struct start out
    unset, the loop fills them in, and bit 0 of the bitmap behind [bmp[0]]
    is set: block 0 is the free block map. *)
Definition block_store_create : outcome (option block_store_t) :=
  match create_loop 256 0 {| bmp := replicate 256 None |} with
  | None => Done None
  | Some s =>
      b0 ← deref s 0;
      Done (Some (store s 0 (Some (bitmap_set b0 0))))
  end.

(** [block_store_allocate]: the first zero of the bitmap behind [bmp[0]],
    set and returned when it is below 256. *)
Definition block_store_allocate (bs : option block_store_t)
  : outcome (Z * option block_store_t) :=
  match bs with
  | None => Done (SIZE_MAX, None)
  | Some s =>
      b0 ← deref s 0;
      let i := bitmap_ffz b0 in
      if (i =? SIZE_MAX) || (i >=? 256) then Done (SIZE_MAX, Some s)
      else Done (i, Some (store s 0 (Some (bitmap_set b0 i))))
  end.

(** [block_store_request]: the conditions are tested from left to right, so
    [bmp[0]] is read only for a device that is there and an id in (0, 256). *)
Definition block_store_request (bs : option block_store_t) (block_id : Z)
  : outcome (bool * option block_store_t) :=
  match bs with
  | None => Done (false, None)
  | Some s =>
      if (block_id >? 0) && (block_id <? 256) then
        b0 ← deref s 0;
        if negb (bitmap_test b0 block_id)
        then Done (true, Some (store s 0 (Some (bitmap_set b0 block_id))))
        else Done (false, Some s)
      else Done (false, Some s)
  end.

(** [block_store_release]: same guard as [block_store_request], with the
    bit required to be set. *)
Definition block_store_release (bs : option block_store_t) (block_id : Z)
  : outcome (option block_store_t) :=
  match bs with
  | None => Done None
  | Some s =>
      if (block_id >? 0) && (block_id <? 256) then
        b0 ← deref s 0;
        if bitmap_test b0 block_id
        then Done (Some (store s 0 (Some (bitmap_reset b0 block_id))))
        else Done (Some s)
      else Done (Some s)
  end.

(** [for (; i < 256; ++i) if (bitmap_test(bmp[0], i)) ub++;] *)
Fixpoint used_loop (n : nat) (b0 : bitmap_t) (i ub : Z) : Z :=
  match n with
  | O => ub
  | S n' => used_loop n' b0 (i + 1) (if bitmap_test b0 i then ub + 1 else ub)
  end.

(** [block_store_get_used_blocks]: the loop runs over the ids 1 to 255. *)
Definition block_store_get_used_blocks (bs : option block_store_t) : outcome Z :=
  match bs with
  | None => Done SIZE_MAX
  | Some s =>
      b0 ← deref s 0;
      let ub := used_loop 255 b0 1 0 in
      if ub >=? 256 then Done SIZE_MAX else Done ub
  end.

(** [block_store_get_free_blocks]. *)
Definition block_store_get_free_blocks (bs : option block_store_t) : outcome Z :=
  ub ← block_store_get_used_blocks bs;
  if ub =? SIZE_MAX then Done SIZE_MAX else Done (255 - ub).

(** [block_store_get_total_blocks]. *)
Definition block_store_get_total_blocks : Z := 255.

(** [block_store_read]: the result is the byte count with the buffer as the
    call leaves it.  [bmp[block_id]] is read without a check on [block_id]. *)
Definition block_store_read (bs : option block_store_t) (block_id : Z)
    (buffer : option (list Z)) : outcome (Z * option (list Z)) :=
  match bs, buffer with
  | Some s, Some buf =>
      b ← deref s block_id;
      Done (256, Some (memcpy buf (bitmap_export b) 256))
  | _, _ => Done (0, buffer)
  end.

(** [block_store_write]: the entry [bmp[block_id]] is replaced by a bitmap
    imported from the buffer; a failed import leaves the entry [NULL]. *)
Definition block_store_write (bs : option block_store_t) (block_id : Z)
    (buffer : option (list Z)) : outcome (Z * option block_store_t) :=
  match bs, buffer with
  | Some s, Some _ =>
      if block_id >=? 256 then Done (0, bs)
      else
        let p := bitmap_import 2048 buffer in
        let s' := store s block_id p in
        match p with
        | None => Done (0, Some s')
        | Some _ => Done (256, Some s')
        end
  | _, _ => Done (0, bs)
  end.

(** ** Files

    The file system is a finite map from paths to contents.  Its calls do
    not fail on their own: [open] for reading fails on a missing file only,
    [read] hands out what is left of the file (fewer bytes than asked for at
    the end), [write] appends.  The checks the code makes on their results
    are kept as they are written. *)

Definition sys_write (file src : list Z) (count : Z) : Z * list Z :=
  (count, file ++ take (Z.to_nat count) src).

Definition sys_read (rest buffer : list Z) (count : Z) : Z * list Z * list Z :=
  let n := Z.min count (Z.of_nat (length rest)) in
  (n, memcpy buffer rest n, drop (Z.to_nat n) rest).

(** The loop of [block_store_serialize]; [None] is its [return 0]. *)
Fixpoint serialize_loop (n : nat) (s : block_store_t) (i size : Z) (file : list Z)
  : outcome (option Z * list Z) :=
  match n with
  | O => Done (Some size, file)
  | S n' =>
      b ← deref s i;
      let '(r, file') := sys_write file (bitmap_export b) 256 in
      if r <? 0 then Done (None, file')
      else serialize_loop n' s (i + 1) (size + 256) file'
  end.

(** [block_store_serialize]: the file is created or emptied, reopened for
    appending, and receives the 256 bytes of every block in id order. *)
Definition block_store_serialize (bs : option block_store_t)
    (filename : option string) (fs : gmap string (list Z))
  : outcome (Z * gmap string (list Z)) :=
  match bs, filename with
  | Some s, Some name =>
      let fs1 := <[name := []]> fs in
      match fs1 !! name with
      | None => Done (0, fs1)
      | Some file =>
          '(r, file') ← serialize_loop 256 s 0 0 file;
          let fs2 := <[name := file']> fs1 in
          match r with
          | None => Done (0, fs2)
          | Some size => Done (size, fs2)
          end
      end
  | _, _ => Done (0, fs)
  end.

(** The loop of [block_store_deserialize].  [uninit i] is what the
    uninitialised [uint8_t buffer[256]] of iteration [i] happens to hold. *)
Fixpoint deserialize_loop (n : nat) (bs : option block_store_t) (i : Z)
    (rest : list Z) (uninit : Z -> list Z) : outcome (option block_store_t) :=
  match n with
  | O => Done bs
  | S n' =>
      let '(r, buffer, rest') := sys_read rest (uninit i) 256 in
      if r <? 0 then Done None
      else
        '(w, bs') ← block_store_write bs i (Some buffer);
        if negb (w =? 256) then Done None
        else deserialize_loop n' bs' (i + 1) rest' uninit
  end.

(** [block_store_deserialize]: a new device, every block of which is
    written, through [block_store_write], with the next 256 bytes of the
    file.  The error paths destroy the device and return [NULL]. *)
Definition block_store_deserialize (filename : option string)
    (fs : gmap string (list Z)) (uninit : Z -> list Z)
  : outcome (option block_store_t) :=
  match filename with
  | None => Done None
  | Some name =>
      match fs !! name with
      | None => Done None
      | Some file =>
          bs ← block_store_create;
          match bs with
          | None => Done None
          | Some _ => deserialize_loop 256 bs 0 file uninit
          end
      end
  end.

(** ** Observations and well-formed devices *)

(** The occupancy bit of block [i]: bit [i] of the bitmap behind [bmp[0]]. *)
Definition occupied (s : block_store_t) (i : Z) : bool :=
  match deref s 0 with
  | Done b0 => bitmap_test b0 i
  | Undefined => false
  end.

(** The stored content of slot [i]: the bytes behind [bmp[i]]. *)
Definition content (s : block_store_t) (i : Z) : list Z :=
  match deref s i with
  | Done b => bitmap_export b
  | Undefined => []
  end.

(** A bitmap of a live device: 2048 bits on 256 bytes. *)
Definition bitmap_ok (b : bitmap_t) : bool :=
  (bit_count b =? 2048) && (length (data b) =? 256)%nat.

(** A live device: 256 entries, none [NULL], each a block-sized bitmap. *)
Definition store_ok (s : block_store_t) : bool :=
  (length (bmp s) =? 256)%nat
  && forallb (fun p => match p with Some b => bitmap_ok b | None => false end) (bmp s).

(** A device pointer a caller may hold: [NULL], or a live device. *)
Definition device_ok (bs : option block_store_t) : bool :=
  match bs with
  | Some s => store_ok s
  | None => true
  end.

(** The device [block_store_create] returns, as a value. *)
Definition fresh : block_store_t :=
  match block_store_create with
  | Done (Some s) => s
  | _ => {| bmp := [] |}
  end.

(** The number of set occupancy bits among the ids [1, 256). *)
Definition used_bits (s : block_store_t) : Z :=
  Z.of_nat (length (filter (fun i => occupied s i = true) (seqZ 1 255))).

(** [n] calls of [block_store_allocate] in a row: the ids returned, in
    order, and the device left behind. *)
Fixpoint allocate_many (n : nat) (bs : option block_store_t)
  : outcome (list Z * option block_store_t) :=
  match n with
  | O => Done ([], bs)
  | S n' =>
      '(id, bs1) ← block_store_allocate bs;
      '(ids, bs2) ← allocate_many n' bs1;
      Done (id :: ids, bs2)
  end.

(** The device state an outcome carries, for stating examples. *)
Definition device_of {A : Type} (r : outcome (A * option block_store_t)) : block_store_t :=
  match r with
  | Done (_, Some s) => s
  | _ => {| bmp := [] |}
  end.

(** A block of 256 zero bytes. *)
Definition zero_block : list Z := replicate 256 0.

(** ** Sequences of calls *)

(** The calls a client makes on a device it holds. *)
Inductive op : Type :=
| Allocate
| Request (block_id : Z)
| Release (block_id : Z)
| Read (block_id : Z) (buffer : list Z)
| Write (block_id : Z) (buffer : list Z).

Definition step (bs : option block_store_t) (o : op) : outcome (option block_store_t) :=
  match o with
  | Allocate => '(_, bs') ← block_store_allocate bs; Done bs'
  | Request block_id => '(_, bs') ← block_store_request bs block_id; Done bs'
  | Release block_id => block_store_release bs block_id
  | Read block_id buffer => _ ← block_store_read bs block_id (Some buffer); Done bs
  | Write block_id buffer => '(_, bs') ← block_store_write bs block_id (Some buffer); Done bs'
  end.

Fixpoint run (bs : option block_store_t) (ops : list op) : outcome (option block_store_t) :=
  match ops with
  | [] => Done bs
  | o :: ops' => bs' ← step bs o; run bs' ops'
  end.

(** Calls that respect the C types (buffers of a block at least) and do not
    write to block 0. *)
Definition spares_block0 (o : op) : Prop :=
  match o with
  | Write block_id buffer => 0 < block_id /\ (256 <= length buffer)%nat
  | _ => True
  end.

(** The bytes [block_store_serialize] writes for one entry of [bmp], and
    for a run of entries: 256 bytes per block, in id order. *)
Definition block_bytes (p : option bitmap_t) : list Z :=
  match p with
  | Some b => take 256 (bitmap_export b)
  | None => []
  end.

Definition image (l : list (option bitmap_t)) : list Z :=
  concat (map block_bytes l).

(** Devices used as examples: after 255 allocations; after writing zeros
    over block 0; after requesting block 10; after requesting block 100. *)
Definition full : block_store_t := device_of (allocate_many 255 (Some fresh)).
Definition wiped : block_store_t :=
  device_of (block_store_write (Some fresh) 0 (Some zero_block)).
Definition requested10 : block_store_t :=
  device_of (block_store_request (Some fresh) 10).
Definition requested100 : block_store_t :=
  device_of (block_store_request (Some fresh) 100).

(** Calls within the C contract of the functions: ids are [size_t], a
    buffer handed to [block_store_write] holds a block at least, and
    [block_store_read], which checks nothing, gets an id below 256. *)
Definition op_valid (o : op) : bool :=
  match o with
  | Read block_id _ => (0 <=? block_id) && (block_id <? 256)
  | Write block_id buffer => (0 <=? block_id) && (256 <=? length buffer)%nat
  | _ => true
  end.

Definition writes_block0 (o : op) : bool :=
  match o with
  | Write block_id _ => block_id =? 0
  | _ => false
  end.

(** The entries the loop of [block_store_deserialize] builds, one per
    iteration: the bitmap imported from the buffer as [read] left it. *)
Fixpoint blocks_read (n : nat) (i : Z) (rest : list Z) (uninit : Z -> list Z)
  : list (option bitmap_t) :=
  match n with
  | O => []
  | S n' =>
      let '(_, buffer, rest') := sys_read rest (uninit i) 256 in
      Some {| bit_count := 2048; data := take 256 buffer |}
      :: blocks_read n' (i + 1) rest' uninit
  end.

(** * Properties *)

(** Runs the sequencing of outcomes in the goal. *)
Ltac run_bind := unfold mbind, outcome_bind; cbv beta iota.
Ltac run_bind_in H := unfold mbind, outcome_bind in H; cbv beta iota in H.


(** ** Bits of a byte *)

Section Bits.

Implicit Types (b : bitmap_t) (x i j : Z).

Lemma bit_pos_range i : 0 <= Z.land i 7 < 8.
Proof.
  change 7 with (Z.ones 3). rewrite Z.land_ones by lia.
  change (2 ^ 3) with 8. apply Z.mod_pos_bound. lia.
Qed.

Lemma bit_pos_mod i : Z.land i 7 = i mod 8.
Proof. change 7 with (Z.ones 3). now rewrite Z.land_ones by lia. Qed.

Lemma byte_index_div i : byte_index i = Z.to_nat (i / 8).
Proof. unfold byte_index. now rewrite Z.shiftr_div_pow2 by lia. Qed.

(** Two bit numbers with the same byte and the same position are equal. *)
Lemma bit_address_inj i j :
  0 <= i -> 0 <= j ->
  byte_index i = byte_index j -> Z.land i 7 = Z.land j 7 -> i = j.
Proof.
  intros Hi Hj Hb Hp. rewrite !byte_index_div in Hb. rewrite !bit_pos_mod in Hp.
  assert (i / 8 = j / 8).
  { apply Z2Nat.inj; auto; apply Z.div_pos; lia. }
  rewrite (Z.div_mod i 8), (Z.div_mod j 8) by lia. congruence.
Qed.

(** [x & (1 << k)] is non-zero exactly when bit [k] of [x] is set. *)
Lemma mask_test x k : 0 <= k -> negb (Z.land x (Z.shiftl 1 k) =? 0) = Z.testbit x k.
Proof.
  intros Hk. rewrite Z.shiftl_1_l.
  destruct (Z.testbit x k) eqn:Hx.
  - apply negb_true_iff, Z.eqb_neq. intros H0.
    assert (Z.testbit (Z.land x (2 ^ k)) k = true) as Hb.
    { rewrite Z.land_spec, Hx, Z.pow2_bits_true; auto. }
    rewrite H0, Z.bits_0 in Hb. discriminate.
  - apply negb_false_iff, Z.eqb_eq, Z.bits_inj'. intros n Hn.
    rewrite Z.land_spec, Z.bits_0, Z.pow2_bits_eqb by lia.
    destruct (Z.eqb_spec k n); subst; rewrite ?Hx, ?andb_false_r; auto.
Qed.

Lemma bitmap_test_bit b i :
  bitmap_test b i =
  match data b !! byte_index i with
  | Some x => Z.testbit x (Z.land i 7)
  | None => false
  end.
Proof.
  unfold bitmap_test, bit_mask. destruct (data b !! byte_index i); auto.
  apply mask_test, bit_pos_range.
Qed.

(** The byte written by [bitmap_set], bit by bit. *)
Lemma set_byte_bits x i k :
  0 <= k < 8 ->
  Z.testbit (Z.lor x (bit_mask i) mod 256) k = Z.testbit x k || (Z.land i 7 =? k).
Proof.
  intros Hk. change 256 with (2 ^ 8). rewrite Z.mod_pow2_bits_low by lia.
  unfold bit_mask. rewrite Z.lor_spec, Z.shiftl_1_l, Z.pow2_bits_eqb; auto.
  apply bit_pos_range.
Qed.

(** The byte written by [bitmap_reset], bit by bit. *)
Lemma reset_byte_bits x i k :
  0 <= k < 8 ->
  Z.testbit (Z.land x (Z.lnot (bit_mask i)) mod 256) k
  = Z.testbit x k && negb (Z.land i 7 =? k).
Proof.
  intros Hk. change 256 with (2 ^ 8). rewrite Z.mod_pow2_bits_low by lia.
  unfold bit_mask. rewrite Z.land_spec, Z.lnot_spec, Z.shiftl_1_l by lia.
  rewrite Z.pow2_bits_eqb; auto. apply bit_pos_range.
Qed.

Lemma bitmap_test_set_eq b i :
  (byte_index i < length (data b))%nat -> bitmap_test (bitmap_set b i) i = true.
Proof.
  intros Hlen. rewrite bitmap_test_bit. simpl.
  rewrite list_lookup_alter_eq.
  destruct (lookup_lt_is_Some_2 _ _ Hlen) as [x ->]. simpl.
  rewrite set_byte_bits by apply bit_pos_range.
  rewrite Z.eqb_refl. apply orb_true_r.
Qed.

Lemma bitmap_test_set_ne b i j :
  0 <= i -> 0 <= j -> i <> j -> bitmap_test (bitmap_set b i) j = bitmap_test b j.
Proof.
  intros Hi Hj Hne. rewrite !bitmap_test_bit. simpl.
  destruct (decide (byte_index i = byte_index j)) as [Heq|Hbyte].
  - rewrite Heq, list_lookup_alter_eq.
    destruct (data b !! byte_index j) as [x|]; simpl; auto.
    rewrite set_byte_bits by apply bit_pos_range.
    destruct (Z.eqb_spec (Z.land i 7) (Z.land j 7)) as [Hp|_].
    + destruct Hne. now apply bit_address_inj.
    + apply orb_false_r.
  - now rewrite list_lookup_alter_ne.
Qed.

Lemma bitmap_test_reset_eq b i : bitmap_test (bitmap_reset b i) i = false.
Proof.
  rewrite bitmap_test_bit. simpl. rewrite list_lookup_alter_eq.
  destruct (data b !! byte_index i) as [x|]; simpl; auto.
  rewrite reset_byte_bits by apply bit_pos_range.
  rewrite Z.eqb_refl. apply andb_false_r.
Qed.

Lemma bitmap_test_reset_ne b i j :
  0 <= i -> 0 <= j -> i <> j -> bitmap_test (bitmap_reset b i) j = bitmap_test b j.
Proof.
  intros Hi Hj Hne. rewrite !bitmap_test_bit. simpl.
  destruct (decide (byte_index i = byte_index j)) as [Heq|Hbyte].
  - rewrite Heq, list_lookup_alter_eq.
    destruct (data b !! byte_index j) as [x|]; simpl; auto.
    rewrite reset_byte_bits by apply bit_pos_range.
    destruct (Z.eqb_spec (Z.land i 7) (Z.land j 7)) as [Hp|_].
    + destruct Hne. now apply bit_address_inj.
    + apply andb_true_r.
  - now rewrite list_lookup_alter_ne.
Qed.

Lemma byte_index_lt i n :
  0 <= i < 8 * Z.of_nat n -> (byte_index i < n)%nat.
Proof.
  intros H. rewrite byte_index_div.
  assert (0 <= i / 8 < Z.of_nat n).
  { split; [apply Z.div_pos; lia | apply Z.div_lt_upper_bound; lia]. }
  lia.
Qed.

End Bits.

(** ** Find-first-zero *)

Lemma ffz_scan_spec (b : bitmap_t) (n : nat) (r0 : Z) :
  let r := ffz_scan b n r0 in
  r0 <= r <= r0 + Z.of_nat n
  /\ (forall j, r0 <= j < r -> bitmap_test b j = true)
  /\ (r < r0 + Z.of_nat n -> r < bit_count b -> bitmap_test b r = false).
Proof.
  revert r0. induction n as [|n IH]; intros r0; simpl.
  - repeat split; intros; lia.
  - destruct (Z.ltb_spec r0 (bit_count b)) as [Hlt|Hge]; simpl.
    + destruct (bitmap_test b r0) eqn:Ht.
      * destruct (IH (r0 + 1)) as (Hr & Hset & Hclr).
        repeat split; try lia.
        -- intros j Hj. destruct (decide (j = r0)) as [->|]; auto.
           apply Hset. lia.
        -- intros. apply Hclr; lia.
      * repeat split; intros; try lia. assumption.
    + repeat split; intros; lia.
Qed.

(** [bitmap_ffz] returns the lowest clear bit, and [SIZE_MAX] exactly when
    there is none. *)
Lemma bitmap_ffz_spec (b : bitmap_t) :
  0 <= bit_count b < SIZE_MAX ->
  (bitmap_ffz b = SIZE_MAX
   /\ forall j, 0 <= j < bit_count b -> bitmap_test b j = true)
  \/ (0 <= bitmap_ffz b < bit_count b
      /\ bitmap_test b (bitmap_ffz b) = false
      /\ forall j, 0 <= j < bitmap_ffz b -> bitmap_test b j = true).
Proof.
  intros Hn. unfold bitmap_ffz.
  destruct (ffz_scan_spec b (Z.to_nat (bit_count b)) 0) as (Hr & Hset & Hclr).
  rewrite Z2Nat.id in Hr, Hclr by lia.
  destruct (Z.eqb_spec (ffz_scan b (Z.to_nat (bit_count b)) 0) (bit_count b)) as [Heq|Hne].
  - left. split; auto. intros j Hj. apply Hset. lia.
  - right. split; [lia|]. split; [apply Hclr; lia | exact Hset].
Qed.

(** ** Well-formed devices *)

Lemma bitmap_ok_spec (b : bitmap_t) :
  bitmap_ok b = true <-> bit_count b = 2048 /\ length (data b) = 256%nat.
Proof.
  unfold bitmap_ok. rewrite andb_true_iff, Z.eqb_eq, Nat.eqb_eq. tauto.
Qed.

Lemma store_ok_spec (s : block_store_t) :
  store_ok s = true <->
  length (bmp s) = 256%nat
  /\ forall (i : nat) p, bmp s !! i = Some p -> exists b, p = Some b /\ bitmap_ok b = true.
Proof.
  unfold store_ok. rewrite andb_true_iff, Nat.eqb_eq, forallb_forall.
  split; intros [Hlen Hall]; split; auto.
  - intros i p Hp. apply list_elem_of_lookup_2, list_elem_of_In, Hall in Hp.
    destruct p as [b|]; [eauto | discriminate].
  - intros p Hin. apply list_elem_of_In, list_elem_of_lookup_1 in Hin as [i Hi].
    destruct (Hall i p Hi) as (b & -> & Hb). exact Hb.
Qed.

Lemma store_ok_deref (s : block_store_t) (i : Z) :
  store_ok s = true -> 0 <= i < 256 ->
  exists b, deref s i = Done b /\ bitmap_ok b = true.
Proof.
  intros [Hlen Hall]%store_ok_spec Hi. unfold deref.
  destruct (Z.ltb_spec i 0); [lia|].
  destruct (lookup_lt_is_Some_2 (bmp s) (Z.to_nat i)) as [p Hp]; [lia|].
  rewrite Hp. destruct (Hall _ _ Hp) as (b & -> & Hb). eauto.
Qed.

(** Outside [0, 256) there is no entry to read. *)
Lemma store_ok_deref_outside (s : block_store_t) (i : Z) :
  store_ok s = true -> i < 0 \/ 256 <= i -> deref s i = Undefined.
Proof.
  intros [Hlen _]%store_ok_spec Hi. unfold deref.
  destruct (Z.ltb_spec i 0); auto.
  rewrite (lookup_ge_None_2 (bmp s) (Z.to_nat i)); auto. lia.
Qed.

Lemma deref_store_eq (s : block_store_t) (i : Z) (b : bitmap_t) :
  0 <= i -> (Z.to_nat i < length (bmp s))%nat ->
  deref (store s i (Some b)) i = Done b.
Proof.
  intros Hi Hlen. unfold deref, store. simpl.
  destruct (Z.ltb_spec i 0); [lia|].
  now rewrite list_lookup_insert_eq.
Qed.

Lemma deref_store_ne (s : block_store_t) (i j : Z) (p : option bitmap_t) :
  0 <= i -> i <> j -> deref (store s i p) j = deref s j.
Proof.
  intros Hi Hne. unfold deref, store. simpl.
  destruct (Z.ltb_spec j 0); auto.
  rewrite list_lookup_insert_ne; auto. lia.
Qed.

Lemma store_ok_store (s : block_store_t) (i : Z) (b : bitmap_t) :
  store_ok s = true -> bitmap_ok b = true -> store_ok (store s i (Some b)) = true.
Proof.
  intros [Hlen Hall]%store_ok_spec Hb. apply store_ok_spec. unfold store. simpl.
  split; [now rewrite length_insert|].
  intros k p [(_ & <- & _)|(_ & Hp)]%list_lookup_insert_Some; eauto.
Qed.

Lemma bitmap_ok_set (b : bitmap_t) (i : Z) :
  bitmap_ok b = true -> bitmap_ok (bitmap_set b i) = true.
Proof.
  rewrite !bitmap_ok_spec. simpl. now rewrite length_alter.
Qed.

Lemma bitmap_ok_reset (b : bitmap_t) (i : Z) :
  bitmap_ok b = true -> bitmap_ok (bitmap_reset b i) = true.
Proof.
  rewrite !bitmap_ok_spec. simpl. now rewrite length_alter.
Qed.

(** What [bitmap_import(2048, bytes)] builds from at least 256 bytes. *)
Lemma bitmap_import_block (src : list Z) :
  (256 <= length src)%nat ->
  bitmap_import 2048 (Some src)
  = Some {| bit_count := 2048; data := take 256 src |}.
Proof.
  intros Hlen. unfold bitmap_import, bitmap_create, memcpy.
  change (2048 <=? 0) with false. cbv iota. unfold bit_count, data.
  change (Z.to_nat ((2048 + 7) / 8)) with 256%nat.
  rewrite drop_ge by now rewrite length_replicate.
  now rewrite app_nil_r.
Qed.

Lemma store_ok_fresh : block_store_create = Done (Some fresh) /\ store_ok fresh = true.
Proof. split; vm_compute; reflexivity. Qed.

(** ** Occupancy and content under the operations *)

Lemma occupied_deref (s : block_store_t) (b0 : bitmap_t) (i : Z) :
  deref s 0 = Done b0 -> occupied s i = bitmap_test b0 i.
Proof. intros H. unfold occupied. now rewrite H. Qed.

(** Updating the bitmap behind [bmp[0]] leaves every other slot alone. *)
Lemma content_store_0 (s : block_store_t) (p : option bitmap_t) (k : Z) :
  k <> 0 -> content (store s 0 p) k = content s k.
Proof. intros Hk. unfold content. rewrite deref_store_ne; auto; lia. Qed.

(** Replacing another slot leaves the occupancy bitmap alone. *)
Lemma occupied_store_other (s : block_store_t) (i : Z) (p : option bitmap_t) (j : Z) :
  0 < i -> occupied (store s i p) j = occupied s j.
Proof. intros Hi. unfold occupied. rewrite deref_store_ne; auto; lia. Qed.

Lemma occupied_store_0 (s : block_store_t) (b : bitmap_t) (j : Z) :
  store_ok s = true -> occupied (store s 0 (Some b)) j = bitmap_test b j.
Proof.
  intros [Hlen _]%store_ok_spec. unfold occupied.
  rewrite deref_store_eq; auto; simpl; lia.
Qed.

(** [block_store_allocate] takes the lowest clear bit below 256, and fails
    exactly when there is none. *)
Lemma allocate_spec (s : block_store_t) :
  store_ok s = true ->
  exists b0, deref s 0 = Done b0 /\ bitmap_ok b0 = true /\
    ((block_store_allocate (Some s) = Done (SIZE_MAX, Some s)
      /\ forall j, 0 <= j < 256 -> bitmap_test b0 j = true)
     \/ exists i, 0 <= i < 256
          /\ block_store_allocate (Some s)
             = Done (i, Some (store s 0 (Some (bitmap_set b0 i))))
          /\ bitmap_test b0 i = false
          /\ forall j, 0 <= j < i -> bitmap_test b0 j = true).
Proof.
  intros Hok. destruct (store_ok_deref s 0 Hok) as (b0 & Hd & Hb0); [lia|].
  exists b0. split; [exact Hd|]. split; [exact Hb0|].
  apply bitmap_ok_spec in Hb0 as [Hbits Hbytes].
  unfold block_store_allocate. rewrite Hd. run_bind.
  destruct (bitmap_ffz_spec b0) as [[Hmax Hall]|(Hr & Hclr & Hlow)].
  { rewrite Hbits. unfold SIZE_MAX. lia. }
  - left. rewrite Hmax, Z.eqb_refl. simpl. split; auto.
    intros j Hj. apply Hall. lia.
  - rewrite Hbits in Hr.
    destruct (Z.eqb_spec (bitmap_ffz b0) SIZE_MAX) as [Heq|_].
    { unfold SIZE_MAX in Heq. lia. }
    destruct (Z.geb_spec (bitmap_ffz b0) 256) as [Hge|Hlt]; simpl.
    + left. split; auto. intros j Hj. apply Hlow. lia.
    + right. exists (bitmap_ffz b0). repeat split; auto; lia.
Qed.

(** ** Counting *)

Lemma used_loop_count (b0 : bitmap_t) (n : nat) (i ub : Z) :
  used_loop n b0 i ub
  = ub + Z.of_nat (length (filter (fun j => bitmap_test b0 j = true)
                                  (seqZ i (Z.of_nat n)))).
Proof.
  revert i ub. induction n as [|n IH]; intros i ub.
  - simpl. lia.
  - rewrite seqZ_cons by lia. cbn [used_loop]. rewrite IH, filter_cons.
    replace (Z.pred (Z.of_nat (S n))) with (Z.of_nat n) by lia.
    replace (Z.succ i) with (i + 1) by lia.
    destruct (decide (bitmap_test b0 i = true)) as [Ht|Ht].
    + rewrite Ht. cbn [length]. lia.
    + apply not_true_is_false in Ht. rewrite Ht. lia.
Qed.

Lemma filter_length_le {A} (P : A -> Prop) `{!forall x, Decision (P x)} (l : list A) :
  (length (filter P l) <= length l)%nat.
Proof.
  induction l as [|x l IH]; simpl; auto.
  rewrite filter_cons. destruct (decide (P x)); simpl; lia.
Qed.

Lemma used_bits_range (s : block_store_t) : 0 <= used_bits s <= 255.
Proof.
  unfold used_bits.
  pose proof (filter_length_le (fun i => occupied s i = true) (seqZ 1 255)) as H.
  rewrite length_seqZ in H. lia.
Qed.

Lemma used_blocks_count (s : block_store_t) :
  store_ok s = true ->
  block_store_get_used_blocks (Some s) = Done (used_bits s).
Proof.
  intros Hok. destruct (store_ok_deref s 0 Hok) as (b0 & Hd & _); [lia|].
  pose proof (used_bits_range s) as Hrange. unfold used_bits in *.
  unfold block_store_get_used_blocks. rewrite Hd. run_bind.
  rewrite used_loop_count. change (Z.of_nat 255) with 255.
  rewrite Z.add_0_l.
  assert (filter (fun j => bitmap_test b0 j = true) (seqZ 1 255)
          = filter (fun i => occupied s i = true) (seqZ 1 255)) as ->.
  { apply list_filter_iff. intros j. now rewrite (occupied_deref s b0 j Hd). }
  match goal with |- context [?c >=? 256] => destruct (Z.geb_spec c 256) end;
    [lia | reflexivity].
Qed.

Lemma filter_agree (f g : Z -> bool) (l : list Z) :
  (forall j, j ∈ l -> g j = f j) ->
  filter (fun j => g j = true) l = filter (fun j => f j = true) l.
Proof.
  induction l as [|x l IH]; intros Hsame; [reflexivity|].
  rewrite !filter_cons, (Hsame x) by constructor.
  rewrite IH; [reflexivity|]. intros j Hj. apply Hsame. now constructor.
Qed.

(** Setting one clear bit of a duplicate-free range raises the count by one. *)
Lemma count_flip (f g : Z -> bool) (l : list Z) (i : Z) :
  NoDup l -> i ∈ l -> f i = false -> g i = true ->
  (forall j, j ∈ l -> j <> i -> g j = f j) ->
  length (filter (fun j => g j = true) l)
  = S (length (filter (fun j => f j = true) l)).
Proof.
  intros Hnd. induction Hnd as [|x l Hx Hnd IH]; intros Hi Hf Hg Hsame.
  - inversion Hi.
  - rewrite !filter_cons. destruct (decide (x = i)) as [->|Hxi].
    + rewrite decide_True by assumption. rewrite decide_False by congruence.
      cbn [length]. f_equal. f_equal. apply filter_agree.
      intros j Hj. apply Hsame; [now constructor | congruence].
    + assert (i ∈ l) as Hil by (apply elem_of_cons in Hi as [->|]; tauto).
      rewrite (Hsame x) by (auto; constructor).
      assert (IH' := IH Hil Hf Hg (fun j Hj => Hsame j (list_elem_of_further _ _ _ Hj))).
      destruct (decide (f x = true)); cbn [length]; rewrite IH'; reflexivity.
Qed.

(** ** The reserved bit along sequences of calls *)

Lemma step_keeps_bit0 (s : block_store_t) (o : op) (bs' : option block_store_t) :
  store_ok s = true -> occupied s 0 = true -> spares_block0 o ->
  step (Some s) o = Done bs' ->
  exists s', bs' = Some s' /\ store_ok s' = true /\ occupied s' 0 = true.
Proof.
  intros Hok Hbit Ho Hstep.
  destruct (store_ok_deref s 0 Hok) as (b0 & Hd & Hb0); [lia|].
  pose proof (occupied_deref s b0 0 Hd) as Hocc. rewrite Hbit in Hocc.
  destruct o as [|id|id|id buf|id buf]; cbn [step] in Hstep.
  - destruct (allocate_spec s Hok) as (b & Hd' & _ & [[Ha _]|(i & Hi & Ha & Hclr & _)]);
      rewrite Ha in Hstep; run_bind_in Hstep; injection Hstep as <-; [eauto|].
    assert (b = b0) as -> by congruence.
    eexists. split; [reflexivity|]. split.
    + now apply store_ok_store, bitmap_ok_set.
    + rewrite occupied_store_0 by assumption.
      rewrite bitmap_test_set_ne; auto; try lia. congruence.
  - unfold block_store_request in Hstep.
    destruct (Z.gtb_spec id 0) as [Hpos|_]; simpl in Hstep.
    2:{ injection Hstep as <-. eauto. }
    destruct (id <? 256); simpl in Hstep.
    2:{ injection Hstep as <-. eauto. }
    rewrite Hd in Hstep. run_bind_in Hstep.
    destruct (bitmap_test b0 id); simpl in Hstep; injection Hstep as <-; [eauto|].
    eexists. split; [reflexivity|]. split.
    + now apply store_ok_store, bitmap_ok_set.
    + rewrite occupied_store_0 by assumption.
      rewrite bitmap_test_set_ne; auto; lia.
  - unfold block_store_release in Hstep.
    destruct (Z.gtb_spec id 0) as [Hpos|_]; simpl in Hstep.
    2:{ injection Hstep as <-. eauto. }
    destruct (id <? 256); simpl in Hstep.
    2:{ injection Hstep as <-. eauto. }
    rewrite Hd in Hstep. run_bind_in Hstep.
    destruct (bitmap_test b0 id); injection Hstep as <-; [|eauto].
    eexists. split; [reflexivity|]. split.
    + now apply store_ok_store, bitmap_ok_reset.
    + rewrite occupied_store_0 by assumption.
      rewrite bitmap_test_reset_ne; auto; lia.
  - destruct (block_store_read (Some s) id (Some buf)); run_bind_in Hstep; [|discriminate].
    injection Hstep as <-. eauto.
  - destruct Ho as [Hpos Hlen]. unfold block_store_write in Hstep.
    destruct (id >=? 256); run_bind_in Hstep.
    { injection Hstep as <-. eauto. }
    rewrite bitmap_import_block in Hstep by assumption. cbv zeta in Hstep.
    injection Hstep as <-. eexists. split; [reflexivity|]. split.
    + apply store_ok_store; auto. apply bitmap_ok_spec. simpl.
      split; [reflexivity|]. rewrite length_take. lia.
    + now rewrite occupied_store_other.
Qed.

(** As long as no call writes to block 0, every state reached from a live
    device with bit 0 set is a live device with bit 0 set. *)
Lemma run_keeps_bit0 (ops : list op) (s : block_store_t) (bs' : option block_store_t) :
  store_ok s = true -> occupied s 0 = true -> Forall spares_block0 ops ->
  run (Some s) ops = Done bs' ->
  exists s', bs' = Some s' /\ store_ok s' = true /\ occupied s' 0 = true.
Proof.
  revert s. induction ops as [|o ops IH]; intros s Hok Hbit Hall Hrun.
  - injection Hrun as <-. eauto.
  - apply Forall_cons in Hall as [Ho Hall]. cbn [run] in Hrun.
    destruct (step (Some s) o) as [bs1|] eqn:Hstep; run_bind_in Hrun; [|discriminate].
    destruct (step_keeps_bit0 s o bs1 Hok Hbit Ho Hstep) as (s1 & -> & Hok1 & Hbit1).
    eauto.
Qed.

(** ** Serialize and deserialize *)

Lemma serialize_loop_spec (s : block_store_t) (l pre : list (option bitmap_t))
    (i size : Z) (file : list Z) :
  bmp s = pre ++ l -> Z.of_nat (length pre) = i ->
  Forall (fun p => exists b, p = Some b) l ->
  serialize_loop (length l) s i size file
  = Done (Some (size + 256 * Z.of_nat (length l)), file ++ image l).
Proof.
  revert pre i size file.
  induction l as [|p l IH]; intros pre i size file Hbmp Hi Hall.
  - simpl. rewrite app_nil_r. do 3 f_equal. lia.
  - apply Forall_cons in Hall as [[b ->] Hall].
    cbn [length serialize_loop].
    assert (deref s i = Done b) as ->.
    { unfold deref. destruct (Z.ltb_spec i 0); [lia|].
      rewrite Hbmp, <- Hi, Nat2Z.id, list_lookup_middle; auto. }
    run_bind. unfold sys_write. change (256 <? 0) with false. cbv iota.
    rewrite (IH (pre ++ [Some b])); auto.
    + unfold image. cbn [map concat block_bytes].
      change (Z.to_nat 256) with 256%nat.
      rewrite <- app_assoc. do 3 f_equal. lia.
    + now rewrite <- app_assoc.
    + rewrite length_app. simpl. lia.
Qed.

Lemma deserialize_loop_spec (l pre old : list (option bitmap_t))
    (d : block_store_t) (i : Z) (rest : list Z) (uninit : Z -> list Z) :
  bmp d = pre ++ old -> length old = length l ->
  Z.of_nat (length pre) = i -> i + Z.of_nat (length l) <= 256 ->
  Forall (fun p => exists b, p = Some b /\ bitmap_ok b = true) l ->
  deserialize_loop (length l) (Some d) i (image l ++ rest) uninit
  = Done (Some {| bmp := pre ++ l |}).
Proof.
  revert pre old d i.
  induction l as [|p l IH]; intros pre old d i Hbmp Hlen Hi Hfit Hall.
  - destruct old; [|discriminate]. destruct d as [m]. simpl in *. now subst.
  - apply Forall_cons in Hall as [(b & -> & [Hbits Hbytes]%bitmap_ok_spec) Hall].
    destruct old as [|o old]; [discriminate|].
    cbn [length] in *. cbn [deserialize_loop].
    unfold image. cbn [map concat block_bytes]. fold (image l).
    unfold bitmap_export. rewrite (take_ge (data b)) by lia.
    rewrite <- app_assoc. unfold sys_read, memcpy.
    rewrite Z.min_l by (rewrite length_app; lia).
    change (Z.to_nat 256) with 256%nat.
    rewrite take_app_length', drop_app_length' by auto.
    change (256 <? 0) with false. cbv iota.
    unfold block_store_write.
    destruct (Z.geb_spec i 256) as [|_]; [lia|].
    rewrite bitmap_import_block by (rewrite length_app; lia).
    rewrite take_app_length' by auto. cbv zeta. run_bind.
    change (256 =? 256) with true. cbv iota beta. simpl negb. cbv iota.
    replace {| bit_count := 2048; data := data b |} with b
      by (destruct b; simpl in *; now subst).
    rewrite (IH (pre ++ [Some b]) old).
    + now rewrite <- app_assoc.
    + unfold store. simpl. rewrite Hbmp, <- Hi, Nat2Z.id.
      rewrite <- app_assoc. simpl.
      replace (length pre) with (length pre + 0)%nat at 1 by lia.
      now rewrite insert_app_r.
    + lia.
    + rewrite length_app. simpl. lia.
    + lia.
    + exact Hall.
Qed.

(** The file [block_store_serialize] leaves behind reads back, through
    [block_store_deserialize], as the very device that was written out. *)
Lemma deserialize_serialize (s : block_store_t) (name : string)
    (fs : gmap string (list Z)) :
  store_ok s = true ->
  exists fs',
    block_store_serialize (Some s) (Some name) fs = Done (65536, fs')
    /\ fs' !! name = Some (image (bmp s))
    /\ forall uninit, block_store_deserialize (Some name) fs' uninit = Done (Some s).
Proof.
  intros Hok. pose proof Hok as [Hlen Hall]%store_ok_spec.
  assert (Forall (fun p => exists b, p = Some b /\ bitmap_ok b = true) (bmp s)) as Hbmp.
  { apply Forall_forall. intros p [i Hi]%list_elem_of_lookup_1. eauto. }
  assert (serialize_loop 256 s 0 0 [] = Done (Some 65536, image (bmp s))) as Hser.
  { rewrite <- Hlen at 1. rewrite (serialize_loop_spec s (bmp s) []); auto.
    - now rewrite Hlen.
    - eapply Forall_impl; [exact Hbmp|]. intros p (b & -> & _). eauto. }
  assert (forall uninit,
            deserialize_loop 256 (Some fresh) 0 (image (bmp s)) uninit = Done (Some s))
    as Hde.
  { intros uninit. destruct store_ok_fresh as [_ [Hflen _]%store_ok_spec].
    rewrite <- Hlen at 1. rewrite <- (app_nil_r (image (bmp s))).
    rewrite (deserialize_loop_spec (bmp s) [] (bmp fresh)); auto; try lia.
    destruct s; reflexivity. }
  unfold block_store_serialize. cbv zeta.
  rewrite lookup_insert_eq, Hser. run_bind.
  eexists. split; [reflexivity|]. rewrite lookup_insert_eq.
  split; [reflexivity|]. intros uninit.
  unfold block_store_deserialize. rewrite lookup_insert_eq.
  destruct store_ok_fresh as [-> _]. run_bind. apply Hde.
Qed.

(** * Statements of the specification *)


(** C1: for every block id with [0 <= id < 256] and every 256-byte buffer
    [X], on a live device, [write(device, id, X)] returns 256 and a following
    [read(device, id, Y)] into a 256-byte buffer [Y] returns 256 with [Y]
    equal to [X] byte for byte; nothing is asked of the occupancy bit of
    [id]. *)
Theorem write_read_roundtrip (s : block_store_t) (id : Z) (X Y : list Z) :
  store_ok s = true -> 0 <= id < 256 ->
  length X = 256%nat -> length Y = 256%nat ->
  exists s',
    block_store_write (Some s) id (Some X) = Done (256, Some s')
    /\ block_store_read (Some s') id (Some Y) = Done (256, Some X).
Proof.
  intros Hok Hid HX HY.
  apply store_ok_spec in Hok as [Hlen _].
  unfold block_store_write.
  destruct (Z.geb_spec id 256) as [|_]; [lia|].
  rewrite bitmap_import_block by lia. rewrite take_ge by lia. cbv zeta.
  eexists. split; [reflexivity|].
  unfold block_store_read. rewrite deref_store_eq by lia. run_bind.
  unfold memcpy, bitmap_export. simpl data.
  change (Z.to_nat 256) with 256%nat.
  rewrite take_ge, drop_ge by lia. now rewrite app_nil_r.
Qed.

Lemma write_read_roundtrip_witness :
  exists s',
    block_store_write (Some fresh) 7 (Some (replicate 256 65)) = Done (256, Some s')
    /\ block_store_read (Some s') 7 (Some zero_block) = Done (256, Some (replicate 256 65)).
Proof.
  apply (write_read_roundtrip fresh 7 (replicate 256 65) zero_block).
  - vm_compute. reflexivity.
  - lia.
  - reflexivity.
  - reflexivity.
Defined.

(** C2 (as amended): writing to a block other than block 0 leaves every
    occupancy bit as it was, and [release] leaves the content of every slot
    other than slot 0 as it was.  Slot 0 is the occupancy bitmap itself. *)
Theorem write_release_frame (s : block_store_t) (id : Z) (buffer : option (list Z)) :
  store_ok s = true -> 0 < id < 256 ->
  (exists w s',
      block_store_write (Some s) id buffer = Done (w, Some s')
      /\ forall j, occupied s' j = occupied s j)
  /\ (forall id', exists s',
        block_store_release (Some s) id' = Done (Some s')
        /\ forall k, k <> 0 -> content s' k = content s k).
Proof.
  intros Hok Hid. split.
  - unfold block_store_write. destruct buffer as [X|]; [|now eauto].
    destruct (Z.geb_spec id 256) as [|_]; [lia|]. cbv zeta.
    destruct (bitmap_import 2048 (Some X)); do 2 eexists;
      (split; [reflexivity|]); intros j; apply occupied_store_other; lia.
  - intros id'. unfold block_store_release.
    destruct (store_ok_deref s 0 Hok) as (b0 & Hd & _); [lia|].
    destruct ((id' >? 0) && (id' <? 256)); [|now eauto].
    rewrite Hd. run_bind.
    destruct (bitmap_test b0 id'); eexists; (split; [reflexivity|]); auto.
    intros k Hk. now apply content_store_0.
Qed.

Lemma write_release_frame_witness :
  (exists w s',
      block_store_write (Some requested100) 100 (Some zero_block) = Done (w, Some s')
      /\ forall j, occupied s' j = occupied requested100 j)
  /\ (forall id', exists s',
        block_store_release (Some requested100) id' = Done (Some s')
        /\ forall k, k <> 0 -> content s' k = content requested100 k).
Proof.
  apply (write_release_frame requested100 100 (Some zero_block)).
  - vm_compute. reflexivity.
  - lia.
Defined.

(** Against C2 as stated: writing zeros over block 0 clears occupancy bit 0,
    and releasing block 100 changes the content of slot 0. *)
Lemma write_release_frame_counterexample :
  (block_store_write (Some fresh) 0 (Some zero_block) = Done (256, Some wiped)
   /\ occupied fresh 0 = true /\ occupied wiped 0 = false)
  /\ (block_store_release (Some requested100) 100 = Done (Some fresh)
      /\ content requested100 0 <> content fresh 0).
Proof.
  split; [repeat split; vm_compute; reflexivity|].
  split; [vm_compute; reflexivity|].
  intros H. apply (f_equal (fun l => l !! 12%nat)) in H. vm_compute in H.
  discriminate.
Qed.

(** C3: after [create], writing 256 zero bytes to block 0 succeeds and
    leaves occupancy bit 0 clear, so that the next [allocate] hands out
    id 0. *)
Theorem write_block0_clears_bit0 :
  block_store_create = Done (Some fresh)
  /\ occupied fresh 0 = true
  /\ block_store_write (Some fresh) 0 (Some zero_block) = Done (256, Some wiped)
  /\ run (Some fresh) [Write 0 zero_block] = Done (Some wiped)
  /\ occupied wiped 0 = false
  /\ exists bs', block_store_allocate (Some wiped) = Done (0, bs').
Proof.
  repeat split; try (vm_compute; reflexivity).
  eexists. vm_compute. reflexivity.
Qed.

(** C4 (as amended): deserializing the file that [serialize] wrote for a
    device gives a device with the same content in every slot and the same
    occupancy bits as the serialized device; slot 0 carries the bitmap. *)
Theorem serialize_deserialize_roundtrip (s : block_store_t) (name : string)
    (fs : gmap string (list Z)) :
  store_ok s = true ->
  exists fs',
    block_store_serialize (Some s) (Some name) fs = Done (65536, fs')
    /\ forall uninit, exists s',
         block_store_deserialize (Some name) fs' uninit = Done (Some s')
         /\ (forall i, content s' i = content s i)
         /\ (forall i, occupied s' i = occupied s i).
Proof.
  intros Hok.
  destruct (deserialize_serialize s name fs Hok) as (fs' & Hser & _ & Hde).
  exists fs'. split; [exact Hser|]. intros uninit. exists s. auto.
Qed.

Lemma serialize_deserialize_roundtrip_witness :
  exists fs',
    block_store_serialize (Some requested10) (Some "test.bs"%string) ∅ = Done (65536, fs')
    /\ forall uninit, exists s',
         block_store_deserialize (Some "test.bs"%string) fs' uninit = Done (Some s')
         /\ (forall i, content s' i = content requested10 i)
         /\ (forall i, occupied s' i = occupied requested10 i).
Proof.
  apply (serialize_deserialize_roundtrip requested10 "test.bs"%string ∅).
  vm_compute. reflexivity.
Defined.

(** Against C4 as stated: a device with block 10 requested, serialized and
    deserialized, still has bit 10 set, which a fresh device has not. *)
Lemma serialize_deserialize_counterexample :
  exists fs',
    block_store_serialize (Some requested10) (Some "test.bs"%string) ∅ = Done (65536, fs')
    /\ block_store_deserialize (Some "test.bs"%string) fs' (fun _ => zero_block)
       = Done (Some requested10)
    /\ occupied requested10 10 = true
    /\ occupied fresh 10 = false.
Proof.
  destruct (deserialize_serialize requested10 "test.bs"%string ∅) as (fs' & Hser & _ & Hde).
  { vm_compute. reflexivity. }
  exists fs'. split; [exact Hser|]. split; [apply Hde|].
  split; vm_compute; reflexivity.
Qed.

(** C5: on a freshly created device, 256 calls of [allocate] in a row
    return 1, 2, ..., 255 and then [SIZE_MAX]; id 0 is never handed out. *)
Theorem allocate_fresh_sequence :
  block_store_create = Done (Some fresh)
  /\ allocate_many 256 (Some fresh) = Done (seqZ 1 255 ++ [SIZE_MAX], Some full).
Proof. split; vm_compute; reflexivity. Qed.

(** C6 (as amended): on a live device [used_count] returns the number of
    set occupancy bits among the ids [1, 256), a number between 0 and 255;
    it returns [SIZE_MAX] exactly when the device is null. *)
Theorem used_blocks_spec (bs : option block_store_t) :
  device_ok bs = true ->
  exists r,
    block_store_get_used_blocks bs = Done r
    /\ (r = SIZE_MAX <-> bs = None)
    /\ (forall s, bs = Some s -> r = used_bits s /\ 0 <= r <= 255).
Proof.
  intros Hwf. destruct bs as [s|].
  - exists (used_bits s). pose proof (used_bits_range s) as Hr.
    split; [apply used_blocks_count; exact Hwf|]. split.
    + split; [|discriminate]. unfold SIZE_MAX. lia.
    + intros s0 [= <-]. auto.
  - exists SIZE_MAX. split; [reflexivity|]. split; [tauto|]. discriminate.
Qed.

Lemma used_blocks_spec_witness :
  exists r,
    block_store_get_used_blocks (Some full) = Done r
    /\ (r = SIZE_MAX <-> Some full = None)
    /\ (forall s, Some full = Some s -> r = used_bits s /\ 0 <= r <= 255).
Proof.
  apply (used_blocks_spec (Some full)).
  vm_compute. reflexivity.
Defined.

(** Against C6 as stated: with all of the ids 1..255 in use the count is
    255, the usable block count, and [used_count] returns 255, not
    [SIZE_MAX]. *)
Lemma used_blocks_spec_counterexample :
  store_ok full = true
  /\ used_bits full = 255
  /\ block_store_get_used_blocks (Some full) = Done 255
  /\ block_store_get_used_blocks (Some full) <> Done SIZE_MAX.
Proof.
  repeat split; try (vm_compute; reflexivity).
  vm_compute. discriminate.
Qed.

(** C7: [request(device, id)] returns true and sets the occupancy bit of
    [id] if and only if the device is not null, [0 < id < 256] and the bit
    of [id] is clear; in every other case it returns false and leaves the
    whole device state as it was. *)
Theorem request_spec (bs : option block_store_t) (id : Z) :
  device_ok bs = true ->
  exists ok bs',
    block_store_request bs id = Done (ok, bs')
    /\ (ok = true <->
        exists s, bs = Some s /\ 0 < id < 256 /\ occupied s id = false)
    /\ (ok = true -> exists s', bs' = Some s' /\ occupied s' id = true)
    /\ (ok = false -> bs' = bs).
Proof.
  intros Hwf. destruct bs as [s|]; simpl.
  2:{ exists false, None. repeat split; try discriminate.
      intros (s & Hs & _). discriminate. }
  assert (store_ok s = true) as Hok by exact Hwf.
  destruct (store_ok_deref s 0 Hok) as (b0 & Hd & Hb0); [lia|].
  destruct (Z.gtb_spec id 0) as [Hpos|Hnpos]; simpl.
  2:{ exists false, (Some s). repeat split; try discriminate.
      intros (s0 & _ & Hr & _). lia. }
  destruct (Z.ltb_spec id 256) as [Hlt|Hge]; simpl.
  2:{ exists false, (Some s). repeat split; try discriminate.
      intros (s0 & _ & Hr & _). lia. }
  rewrite Hd. run_bind.
  destruct (bitmap_test b0 id) eqn:Ht; simpl.
  - exists false, (Some s). repeat split; try discriminate.
    intros (s0 & [= <-] & _ & Hocc).
    rewrite (occupied_deref s b0 id Hd) in Hocc. congruence.
  - exists true, (Some (store s 0 (Some (bitmap_set b0 id)))).
    repeat split; try discriminate.
    + intros _. exists s. rewrite (occupied_deref s b0 id Hd). auto with lia.
    + intros _. eexists. split; [reflexivity|].
      rewrite occupied_store_0 by assumption.
      apply bitmap_test_set_eq, byte_index_lt.
      apply bitmap_ok_spec in Hb0 as [_ ->]. lia.
Qed.

Lemma request_spec_witness :
  exists ok bs',
    block_store_request (Some fresh) 100 = Done (ok, bs')
    /\ (ok = true <->
        exists s, Some fresh = Some s /\ 0 < 100 < 256 /\ occupied s 100 = false)
    /\ (ok = true -> exists s', bs' = Some s' /\ occupied s' 100 = true)
    /\ (ok = false -> bs' = Some fresh).
Proof.
  apply (request_spec (Some fresh) 100).
  vm_compute. reflexivity.
Defined.

(** C8: every operation called with a null device returns its failure
    sentinel and changes nothing: allocate, used_count and free_count return
    [SIZE_MAX]; request returns false; release does nothing; read, write and
    serialize return 0, the buffer and the files staying as they were. *)
Theorem null_device_ops (id : Z) (buffer : option (list Z))
    (filename : option string) (fs : gmap string (list Z)) :
  block_store_allocate None = Done (SIZE_MAX, None)
  /\ block_store_get_used_blocks None = Done SIZE_MAX
  /\ block_store_get_free_blocks None = Done SIZE_MAX
  /\ block_store_request None id = Done (false, None)
  /\ block_store_release None id = Done None
  /\ block_store_read None id buffer = Done (0, buffer)
  /\ block_store_write None id buffer = Done (0, None)
  /\ block_store_serialize None filename fs = Done (0, fs).
Proof. repeat split; reflexivity. Qed.

(** C9: [read(device, id, out_buffer)] returns 0 exactly when the device or
    the buffer is null, and otherwise copies exactly 256 bytes and returns
    256; it makes no check on [id], so the access to the block array is
    defined for [id < 256] only: for [id >= 256] it is out of bounds. *)
Theorem read_spec (bs : option block_store_t) (id : Z) (buffer : option (list Z)) :
  device_ok bs = true -> 0 <= id ->
  (bs = None \/ buffer = None -> block_store_read bs id buffer = Done (0, buffer))
  /\ (forall s buf, bs = Some s -> buffer = Some buf -> id < 256 ->
        length (content s id) = 256%nat
        /\ block_store_read bs id buffer
           = Done (256, Some (content s id ++ drop 256 buf)))
  /\ (forall s buf, bs = Some s -> buffer = Some buf -> 256 <= id ->
        block_store_read bs id buffer = Undefined)
  /\ (forall n out, block_store_read bs id buffer = Done (n, out) ->
        n = 0 <-> bs = None \/ buffer = None).
Proof.
  intros Hwf Hid.
  assert (bs = None \/ buffer = None -> block_store_read bs id buffer = Done (0, buffer)) as Hnull.
  { intros [-> | ->]; [reflexivity|]. destruct bs; reflexivity. }
  assert (forall s buf, bs = Some s -> buffer = Some buf -> id < 256 ->
            length (content s id) = 256%nat
            /\ block_store_read bs id buffer
               = Done (256, Some (content s id ++ drop 256 buf))) as Hin.
  { intros s buf -> -> Hlt.
    destruct (store_ok_deref s id Hwf) as (b & Hd & Hb); [lia|].
    apply bitmap_ok_spec in Hb as [_ Hbytes].
    unfold content, block_store_read. rewrite Hd. run_bind.
    unfold bitmap_export, memcpy. change (Z.to_nat 256) with 256%nat.
    split; [exact Hbytes|]. now rewrite take_ge by lia. }
  assert (forall s buf, bs = Some s -> buffer = Some buf -> 256 <= id ->
            block_store_read bs id buffer = Undefined) as Hout.
  { intros s buf -> -> Hge. unfold block_store_read.
    rewrite (store_ok_deref_outside s id Hwf) by lia. reflexivity. }
  split; [exact Hnull|]. split; [exact Hin|]. split; [exact Hout|].
  intros n out H. split.
  - intros ->. destruct bs as [s|]; [|now left]. destruct buffer as [buf|]; [|now right].
    destruct (Z.lt_ge_cases id 256) as [Hlt|Hge].
    + destruct (Hin s buf eq_refl eq_refl Hlt) as [_ Hr]. congruence.
    + rewrite (Hout s buf eq_refl eq_refl Hge) in H. discriminate.
  - intros Hn. rewrite (Hnull Hn) in H. congruence.
Qed.

Lemma read_spec_witness :
  (Some fresh = None \/ Some zero_block = None ->
     block_store_read (Some fresh) 0 (Some zero_block) = Done (0, Some zero_block))
  /\ (forall s buf, Some fresh = Some s -> Some zero_block = Some buf -> 0 < 256 ->
        length (content s 0) = 256%nat
        /\ block_store_read (Some fresh) 0 (Some zero_block)
           = Done (256, Some (content s 0 ++ drop 256 buf)))
  /\ (forall s buf, Some fresh = Some s -> Some zero_block = Some buf -> 256 <= 0 ->
        block_store_read (Some fresh) 0 (Some zero_block) = Undefined)
  /\ (forall n out, block_store_read (Some fresh) 0 (Some zero_block) = Done (n, out) ->
        n = 0 <-> Some fresh = None \/ Some zero_block = None).
Proof.
  apply (read_spec (Some fresh) 0 (Some zero_block)).
  - vm_compute. reflexivity.
  - lia.
Defined.

(** C10 (as amended): whenever [allocate] returns an id other than
    [SIZE_MAX], the occupancy bit of that id was clear before the call and
    is set after it, every other occupancy bit is unchanged, the content of
    every slot other than slot 0 is unchanged, and, when the id is not 0,
    [used_count] does not fail and goes up by exactly one. *)
Theorem allocate_frame (s : block_store_t) :
  store_ok s = true ->
  exists id bs',
    block_store_allocate (Some s) = Done (id, bs')
    /\ (id <> SIZE_MAX ->
        exists s',
          bs' = Some s'
          /\ occupied s id = false /\ occupied s' id = true
          /\ (forall j, 0 <= j -> j <> id -> occupied s' j = occupied s j)
          /\ (forall k, k <> 0 -> content s' k = content s k)
          /\ (id <> 0 ->
              block_store_get_used_blocks (Some s) = Done (used_bits s)
              /\ block_store_get_used_blocks (Some s') = Done (used_bits s + 1)
              /\ used_bits s + 1 <> SIZE_MAX)).
Proof.
  intros Hok.
  destruct (allocate_spec s Hok) as (b0 & Hd & Hb0 & [[Hfail _]|(i & Hi & Halloc & Hclr & _)]).
  { exists SIZE_MAX, (Some s). split; [exact Hfail|]. congruence. }
  exists i, (Some (store s 0 (Some (bitmap_set b0 i)))).
  split; [exact Halloc|]. intros _. eexists. split; [reflexivity|].
  set (s' := store s 0 (Some (bitmap_set b0 i))).
  assert (store_ok s' = true) as Hok' by now apply store_ok_store, bitmap_ok_set.
  assert (occupied s i = false) as Hbefore by now rewrite (occupied_deref s b0 i Hd).
  assert (occupied s' i = true) as Hafter.
  { unfold s'. rewrite occupied_store_0 by assumption.
    apply bitmap_test_set_eq, byte_index_lt.
    apply bitmap_ok_spec in Hb0 as [_ ->]. lia. }
  assert (forall j, 0 <= j -> j <> i -> occupied s' j = occupied s j) as Hothers.
  { intros j Hj Hne. unfold s'. rewrite occupied_store_0 by assumption.
    rewrite (occupied_deref s b0 j Hd). apply bitmap_test_set_ne; auto; lia. }
  repeat split; auto.
  - intros k Hk. now apply content_store_0.
  - now apply used_blocks_count.
  - rewrite (used_blocks_count s') by assumption. f_equal. unfold used_bits.
    rewrite (count_flip (occupied s) (occupied s') (seqZ 1 255) i); auto.
    + lia.
    + apply NoDup_seqZ.
    + apply elem_of_seqZ. lia.
    + intros j Hj%elem_of_seqZ Hne. apply Hothers; lia.
  - pose proof (used_bits_range s). unfold SIZE_MAX. lia.
Qed.

Lemma allocate_frame_witness :
  exists id bs',
    block_store_allocate (Some fresh) = Done (id, bs')
    /\ (id <> SIZE_MAX ->
        exists s',
          bs' = Some s'
          /\ occupied fresh id = false /\ occupied s' id = true
          /\ (forall j, 0 <= j -> j <> id -> occupied s' j = occupied fresh j)
          /\ (forall k, k <> 0 -> content s' k = content fresh k)
          /\ (id <> 0 ->
              block_store_get_used_blocks (Some fresh) = Done (used_bits fresh)
              /\ block_store_get_used_blocks (Some s') = Done (used_bits fresh + 1)
              /\ used_bits fresh + 1 <> SIZE_MAX)).
Proof.
  apply (allocate_frame fresh). vm_compute. reflexivity.
Defined.

(** Against C10 as stated: the first [allocate] on a fresh device returns
    id 1 and changes the content of slot 0; and on the device whose block 0
    was overwritten with zeros, [allocate] returns id 0 while [used_count]
    stays at 0. *)
Lemma allocate_frame_counterexample :
  (exists s',
      block_store_allocate (Some fresh) = Done (1, Some s')
      /\ 1 <> SIZE_MAX
      /\ content s' 0 <> content fresh 0)
  /\ (exists s',
        block_store_allocate (Some wiped) = Done (0, Some s')
        /\ 0 <> SIZE_MAX
        /\ block_store_get_used_blocks (Some wiped) = Done 0
        /\ block_store_get_used_blocks (Some s') = Done 0).
Proof.
  split.
  - eexists. split; [vm_compute; reflexivity|]. split; [discriminate|].
    intros H. apply (f_equal (fun l => l !! 0%nat)) in H. vm_compute in H.
    discriminate.
  - eexists. split; [vm_compute; reflexivity|]. split; [discriminate|].
    split; vm_compute; reflexivity.
Qed.

(** * Further properties of the code *)

(** ** What request and release compute *)

Lemma request_run (s : block_store_t) (b0 : bitmap_t) (id : Z) :
  deref s 0 = Done b0 -> 0 < id < 256 ->
  block_store_request (Some s) id
  = if bitmap_test b0 id then Done (false, Some s)
    else Done (true, Some (store s 0 (Some (bitmap_set b0 id)))).
Proof.
  intros Hd Hid. unfold block_store_request.
  destruct (Z.gtb_spec id 0); [|lia]. destruct (Z.ltb_spec id 256); [|lia].
  simpl. rewrite Hd. run_bind. now destruct (bitmap_test b0 id).
Qed.

Lemma release_run (s : block_store_t) (b0 : bitmap_t) (id : Z) :
  deref s 0 = Done b0 -> 0 < id < 256 ->
  block_store_release (Some s) id
  = if bitmap_test b0 id then Done (Some (store s 0 (Some (bitmap_reset b0 id))))
    else Done (Some s).
Proof.
  intros Hd Hid. unfold block_store_release.
  destruct (Z.gtb_spec id 0); [|lia]. destruct (Z.ltb_spec id 256); [|lia].
  simpl. rewrite Hd. run_bind. reflexivity.
Qed.

Lemma release_outside (s : block_store_t) (id : Z) :
  id <= 0 \/ 256 <= id -> block_store_release (Some s) id = Done (Some s).
Proof.
  intros Hid. unfold block_store_release.
  destruct (Z.gtb_spec id 0); simpl; auto.
  destruct (Z.ltb_spec id 256); simpl; auto. lia.
Qed.

Lemma deref_store_0 (s : block_store_t) (b : bitmap_t) :
  store_ok s = true -> deref (store s 0 (Some b)) 0 = Done b.
Proof.
  intros [Hlen _]%store_ok_spec. apply deref_store_eq; simpl; lia.
Qed.

Lemma in_usable_range (i : Z) : 0 < i < 256 -> i ∈ seqZ 1 255.
Proof. intros Hi. apply elem_of_seqZ. lia. Qed.

(** Setting a clear bit among the ids 1..255 raises the count by one. *)
Lemma used_bits_flip (s s' : block_store_t) (i : Z) :
  0 < i < 256 -> occupied s i = false -> occupied s' i = true ->
  (forall j, 0 <= j -> j <> i -> occupied s' j = occupied s j) ->
  used_bits s' = used_bits s + 1.
Proof.
  intros Hi Hclr Hset Hsame. unfold used_bits.
  rewrite (count_flip (occupied s) (occupied s') (seqZ 1 255) i); auto.
  - lia.
  - apply NoDup_seqZ.
  - now apply in_usable_range.
  - intros j Hj%elem_of_seqZ Hne. apply Hsame; lia.
Qed.

(** X1: [release(device, id)] on a live device clears the occupancy bit of
    [id] exactly when [0 < id < 256] and the bit is set, leaving every other
    bit and every slot but slot 0 alone and lowering [used_count] by one; in
    every other case the device is left exactly as it was. *)
Theorem release_spec (s : block_store_t) (id : Z) :
  store_ok s = true ->
  exists s',
    block_store_release (Some s) id = Done (Some s')
    /\ store_ok s' = true
    /\ (0 < id < 256 -> occupied s' id = false)
    /\ (forall j, 0 <= j -> j <> id -> occupied s' j = occupied s j)
    /\ (forall k, k <> 0 -> content s' k = content s k)
    /\ (0 < id < 256 -> occupied s id = true -> used_bits s = used_bits s' + 1)
    /\ (~ (0 < id < 256 /\ occupied s id = true) -> s' = s).
Proof.
  intros Hok. destruct (store_ok_deref s 0 Hok) as (b0 & Hd & Hb0); [lia|].
  destruct (decide (0 < id < 256)) as [Hid|Hout].
  2:{ exists s. rewrite release_outside by lia. repeat split; auto; tauto. }
  rewrite (release_run s b0 id Hd Hid).
  pose proof (occupied_deref s b0 id Hd) as Hocc.
  destruct (bitmap_test b0 id) eqn:Ht.
  2:{ exists s. repeat split; auto; congruence. }
  set (s' := store s 0 (Some (bitmap_reset b0 id))).
  assert (occupied s' id = false) as Hclr.
  { unfold s'. rewrite occupied_store_0 by assumption. apply bitmap_test_reset_eq. }
  assert (forall j, 0 <= j -> j <> id -> occupied s' j = occupied s j) as Hsame.
  { intros j Hj Hne. unfold s'. rewrite occupied_store_0 by assumption.
    rewrite (occupied_deref s b0 j Hd). apply bitmap_test_reset_ne; auto; lia. }
  exists s'. repeat split; auto.
  - now apply store_ok_store, bitmap_ok_reset.
  - intros k Hk. now apply content_store_0.
  - intros _ _. apply (used_bits_flip s' s id); auto.
    intros j Hj Hne. symmetry. now apply Hsame.
  - intros Hn. destruct Hn. auto.
Qed.

Lemma release_spec_witness :
  exists s',
    block_store_release (Some requested100) 100 = Done (Some s')
    /\ store_ok s' = true
    /\ (0 < 100 < 256 -> occupied s' 100 = false)
    /\ (forall j, 0 <= j -> j <> 100 -> occupied s' j = occupied requested100 j)
    /\ (forall k, k <> 0 -> content s' k = content requested100 k)
    /\ (0 < 100 < 256 -> occupied requested100 100 = true ->
        used_bits requested100 = used_bits s' + 1)
    /\ (~ (0 < 100 < 256 /\ occupied requested100 100 = true) -> s' = requested100).
Proof.
  apply (release_spec requested100 100). vm_compute. reflexivity.
Defined.

(** X2: a successful [request(device, id)] changes nothing but the bit of
    [id]: every other occupancy bit and every slot but slot 0 keep their
    value, the device stays live, and [used_count] goes up by exactly one. *)
Theorem request_frame (s : block_store_t) (id : Z) :
  store_ok s = true -> 0 < id < 256 -> occupied s id = false ->
  exists s',
    block_store_request (Some s) id = Done (true, Some s')
    /\ store_ok s' = true
    /\ (forall j, 0 <= j -> j <> id -> occupied s' j = occupied s j)
    /\ (forall k, k <> 0 -> content s' k = content s k)
    /\ block_store_get_used_blocks (Some s') = Done (used_bits s + 1).
Proof.
  intros Hok Hid Hclr. destruct (store_ok_deref s 0 Hok) as (b0 & Hd & Hb0); [lia|].
  rewrite (request_run s b0 id Hd Hid).
  rewrite (occupied_deref s b0 id Hd) in Hclr. rewrite Hclr.
  set (s' := store s 0 (Some (bitmap_set b0 id))).
  assert (store_ok s' = true) as Hok' by now apply store_ok_store, bitmap_ok_set.
  assert (forall j, 0 <= j -> j <> id -> occupied s' j = occupied s j) as Hsame.
  { intros j Hj Hne. unfold s'. rewrite occupied_store_0 by assumption.
    rewrite (occupied_deref s b0 j Hd). apply bitmap_test_set_ne; auto; lia. }
  exists s'. repeat split; auto.
  - intros k Hk. now apply content_store_0.
  - rewrite used_blocks_count by assumption. f_equal.
    apply (used_bits_flip s s' id); auto.
    + now rewrite (occupied_deref s b0 id Hd).
    + unfold s'. rewrite occupied_store_0 by assumption.
      apply bitmap_test_set_eq, byte_index_lt.
      apply bitmap_ok_spec in Hb0 as [_ ->]. lia.
Qed.

Lemma request_frame_witness :
  exists s',
    block_store_request (Some fresh) 100 = Done (true, Some s')
    /\ store_ok s' = true
    /\ (forall j, 0 <= j -> j <> 100 -> occupied s' j = occupied fresh j)
    /\ (forall k, k <> 0 -> content s' k = content fresh k)
    /\ block_store_get_used_blocks (Some s') = Done (used_bits fresh + 1).
Proof.
  apply (request_frame fresh 100).
  - vm_compute. reflexivity.
  - lia.
  - vm_compute. reflexivity.
Defined.

(** X3: a request that succeeded cannot be repeated: the second
    [request(device, id)] returns false and leaves the device as the first
    one left it. *)
Theorem request_twice (s s1 : block_store_t) (id : Z) :
  store_ok s = true ->
  block_store_request (Some s) id = Done (true, Some s1) ->
  block_store_request (Some s1) id = Done (false, Some s1).
Proof.
  intros Hok Hreq. destruct (store_ok_deref s 0 Hok) as (b0 & Hd & Hb0); [lia|].
  assert (0 < id < 256) as Hid.
  { unfold block_store_request in Hreq.
    destruct (Z.gtb_spec id 0); [|discriminate].
    destruct (Z.ltb_spec id 256); [lia|discriminate]. }
  rewrite (request_run s b0 id Hd Hid) in Hreq.
  destruct (bitmap_test b0 id); [discriminate|].
  assert (s1 = store s 0 (Some (bitmap_set b0 id))) as -> by congruence.
  rewrite (request_run _ (bitmap_set b0 id) id); auto using deref_store_0.
  rewrite bitmap_test_set_eq; auto.
  apply byte_index_lt. apply bitmap_ok_spec in Hb0 as [_ ->]. lia.
Qed.

Lemma request_twice_witness :
  block_store_request (Some requested100) 100 = Done (false, Some requested100).
Proof.
  apply (request_twice fresh requested100 100).
  - vm_compute. reflexivity.
  - vm_compute. reflexivity.
Defined.

(** X4: [release] is idempotent: a second [release(device, id)] leaves the
    device exactly as the first one left it. *)
Theorem release_idempotent (s s1 : block_store_t) (id : Z) :
  store_ok s = true ->
  block_store_release (Some s) id = Done (Some s1) ->
  block_store_release (Some s1) id = Done (Some s1).
Proof.
  intros Hok Hrel. destruct (store_ok_deref s 0 Hok) as (b0 & Hd & Hb0); [lia|].
  destruct (decide (0 < id < 256)) as [Hid|Hout].
  2:{ apply release_outside. lia. }
  rewrite (release_run s b0 id Hd Hid) in Hrel.
  destruct (bitmap_test b0 id) eqn:Ht.
  - assert (s1 = store s 0 (Some (bitmap_reset b0 id))) as -> by congruence.
    rewrite (release_run _ (bitmap_reset b0 id) id); auto using deref_store_0.
    now rewrite bitmap_test_reset_eq.
  - assert (s1 = s) as -> by congruence.
    rewrite (release_run s b0 id Hd Hid). now rewrite Ht.
Qed.

Lemma release_idempotent_witness :
  block_store_release (Some fresh) 100 = Done (Some fresh).
Proof.
  apply (release_idempotent requested100 fresh 100).
  - vm_compute. reflexivity.
  - vm_compute. reflexivity.
Defined.

(** ** Allocation *)

(** X5: on a live device [allocate] returns the lowest-numbered id in
    [0, 256) whose occupancy bit is clear and sets that bit; it returns
    [SIZE_MAX] exactly when all 256 bits are set, and then leaves the device
    as it was. *)
Theorem allocate_lowest (s : block_store_t) :
  store_ok s = true ->
  exists id bs',
    block_store_allocate (Some s) = Done (id, bs')
    /\ (id = SIZE_MAX <-> forall j, 0 <= j < 256 -> occupied s j = true)
    /\ (id = SIZE_MAX -> bs' = Some s)
    /\ (id <> SIZE_MAX ->
        0 <= id < 256
        /\ occupied s id = false
        /\ (forall j, 0 <= j < id -> occupied s j = true)
        /\ exists s', bs' = Some s' /\ store_ok s' = true /\ occupied s' id = true).
Proof.
  intros Hok.
  destruct (allocate_spec s Hok)
    as (b0 & Hd & Hb0 & [[Hfail Hall]|(i & Hi & Halloc & Hclr & Hlow)]).
  - exists SIZE_MAX, (Some s). split; [exact Hfail|]. repeat split; try congruence.
    intros _ j Hj. rewrite (occupied_deref s b0 j Hd). now apply Hall.
  - exists i, (Some (store s 0 (Some (bitmap_set b0 i)))).
    split; [exact Halloc|].
    assert (i <> SIZE_MAX) as Hne by (unfold SIZE_MAX; lia).
    assert (occupied s i = false) as Hocc by now rewrite (occupied_deref s b0 i Hd).
    repeat split; try congruence; try lia.
    + intros Hall. specialize (Hall i Hi). congruence.
    + intros j Hj. rewrite (occupied_deref s b0 j Hd). now apply Hlow.
    + eexists. split; [reflexivity|]. split.
      * now apply store_ok_store, bitmap_ok_set.
      * rewrite occupied_store_0 by assumption.
        apply bitmap_test_set_eq, byte_index_lt.
        apply bitmap_ok_spec in Hb0 as [_ ->]. lia.
Qed.

Lemma allocate_lowest_witness :
  exists id bs',
    block_store_allocate (Some requested10) = Done (id, bs')
    /\ (id = SIZE_MAX <-> forall j, 0 <= j < 256 -> occupied requested10 j = true)
    /\ (id = SIZE_MAX -> bs' = Some requested10)
    /\ (id <> SIZE_MAX ->
        0 <= id < 256
        /\ occupied requested10 id = false
        /\ (forall j, 0 <= j < id -> occupied requested10 j = true)
        /\ exists s', bs' = Some s' /\ store_ok s' = true /\ occupied s' id = true).
Proof.
  apply (allocate_lowest requested10). vm_compute. reflexivity.
Defined.

(** X6: on a live device whose bit 0 is set, an id handed out by
    [allocate] and given back by [release] is the id the next [allocate]
    hands out. *)
Theorem allocate_release_allocate (s : block_store_t) :
  store_ok s = true -> occupied s 0 = true ->
  exists id bs1,
    block_store_allocate (Some s) = Done (id, bs1)
    /\ (id <> SIZE_MAX ->
        exists bs2 bs3,
          block_store_release bs1 id = Done bs2
          /\ block_store_allocate bs2 = Done (id, bs3)).
Proof.
  intros Hok Hbit0.
  destruct (allocate_spec s Hok)
    as (b0 & Hd & Hb0 & [[Hfail _]|(i & Hi & Halloc & Hclr & Hlow)]).
  { exists SIZE_MAX, (Some s). split; [exact Hfail|]. congruence. }
  exists i, (Some (store s 0 (Some (bitmap_set b0 i)))).
  split; [exact Halloc|]. intros _.
  rewrite (occupied_deref s b0 0 Hd) in Hbit0.
  assert (0 < i < 256) as Hpos.
  { destruct (decide (i = 0)) as [->|]; [congruence | lia]. }
  assert (byte_index i < length (data b0))%nat as Hbyte.
  { apply byte_index_lt. apply bitmap_ok_spec in Hb0 as [_ ->]. lia. }
  set (s1 := store s 0 (Some (bitmap_set b0 i))).
  assert (store_ok s1 = true) as Hok1 by now apply store_ok_store, bitmap_ok_set.
  assert (deref s1 0 = Done (bitmap_set b0 i)) as Hd1 by now apply deref_store_0.
  rewrite (release_run s1 (bitmap_set b0 i) i Hd1 Hpos).
  rewrite bitmap_test_set_eq by assumption.
  set (b2 := bitmap_reset (bitmap_set b0 i) i).
  set (s2 := store s1 0 (Some b2)).
  assert (store_ok s2 = true) as Hok2
    by now apply store_ok_store, bitmap_ok_reset, bitmap_ok_set.
  assert (deref s2 0 = Done b2) as Hd2 by now apply deref_store_0.
  assert (forall j, 0 <= j -> j <> i -> bitmap_test b2 j = bitmap_test b0 j) as Hsame.
  { intros j Hj Hne. unfold b2.
    rewrite bitmap_test_reset_ne, bitmap_test_set_ne; auto; lia. }
  assert (bitmap_test b2 i = false) as Hclr2 by apply bitmap_test_reset_eq.
  exists (Some s2), (Some (store s2 0 (Some (bitmap_set b2 i)))).
  split; [reflexivity|].
  destruct (allocate_spec s2 Hok2)
    as (b & Hdb & _ & [[_ Hall]|(i' & Hi' & Halloc' & Hclr' & Hlow')]);
    assert (b = b2) as -> by congruence.
  - rewrite Hall in Hclr2 by lia. discriminate.
  - destruct (Z.lt_trichotomy i' i) as [Hlt|[->|Hgt]].
    + rewrite Hsame, Hlow in Hclr' by lia. discriminate.
    + exact Halloc'.
    + rewrite Hlow' in Hclr2 by lia. discriminate.
Qed.

Lemma allocate_release_allocate_witness :
  exists id bs1,
    block_store_allocate (Some requested10) = Done (id, bs1)
    /\ (id <> SIZE_MAX ->
        exists bs2 bs3,
          block_store_release bs1 id = Done bs2
          /\ block_store_allocate bs2 = Done (id, bs3)).
Proof.
  apply (allocate_release_allocate requested10); vm_compute; reflexivity.
Defined.

(** ** Counting free blocks *)

Lemma filter_all_length {A} (P : A -> Prop) `{!forall x, Decision (P x)} (l : list A) :
  length (filter P l) = length l <-> Forall P l.
Proof.
  induction l as [|x l IH].
  - split; [constructor | reflexivity].
  - rewrite filter_cons. pose proof (filter_length_le P l) as Hle.
    destruct (decide (P x)) as [Hx|Hx]; cbn [length]; split.
    + intros Hlen. constructor; [exact Hx | apply IH; lia].
    + intros Hall. apply Forall_cons in Hall as [_ Hall]. apply IH in Hall. lia.
    + intros Hlen. lia.
    + intros Hall. apply Forall_cons in Hall as [Hx' _]. contradiction.
Qed.

Lemma used_bits_full (s : block_store_t) :
  used_bits s = 255 <-> forall j, 0 < j < 256 -> occupied s j = true.
Proof.
  unfold used_bits. split.
  - intros Hlen j Hj.
    assert (length (filter (fun i => occupied s i = true) (seqZ 1 255))
            = length (seqZ 1 255)) as Hall by (rewrite length_seqZ; lia).
    apply (proj1 (filter_all_length _ _)) in Hall.
    apply (proj1 (Forall_forall _ _) Hall j). now apply in_usable_range.
  - intros Hall.
    assert (Forall (fun i => occupied s i = true) (seqZ 1 255)) as Hfa.
    { apply Forall_forall. intros j Hj%elem_of_seqZ. apply Hall. lia. }
    apply (proj2 (filter_all_length _ _)) in Hfa. rewrite Hfa, length_seqZ. lia.
Qed.

(** X7: on a live device [free_count] is 255 minus the number of set bits
    among the ids 1..255, so that [used_count] and [free_count] always add
    up to [total_blocks]; neither fails. *)
Theorem free_blocks_spec (s : block_store_t) :
  store_ok s = true ->
  exists used free,
    block_store_get_used_blocks (Some s) = Done used
    /\ block_store_get_free_blocks (Some s) = Done free
    /\ used = used_bits s
    /\ 0 <= free <= 255
    /\ used + free = block_store_get_total_blocks.
Proof.
  intros Hok. pose proof (used_bits_range s) as Hr.
  exists (used_bits s), (255 - used_bits s).
  unfold block_store_get_free_blocks. rewrite used_blocks_count by assumption.
  run_bind. destruct (Z.eqb_spec (used_bits s) SIZE_MAX) as [Heq|_].
  { unfold SIZE_MAX in Heq. lia. }
  unfold block_store_get_total_blocks. repeat split; lia.
Qed.

Lemma free_blocks_spec_witness :
  exists used free,
    block_store_get_used_blocks (Some requested10) = Done used
    /\ block_store_get_free_blocks (Some requested10) = Done free
    /\ used = used_bits requested10
    /\ 0 <= free <= 255
    /\ used + free = block_store_get_total_blocks.
Proof.
  apply (free_blocks_spec requested10). vm_compute. reflexivity.
Defined.

(** X8: on a live device whose bit 0 is set, [allocate] fails exactly when
    [free_count] is 0. *)
Theorem allocate_fails_iff_no_free (s : block_store_t) :
  store_ok s = true -> occupied s 0 = true ->
  block_store_allocate (Some s) = Done (SIZE_MAX, Some s)
  <-> block_store_get_free_blocks (Some s) = Done 0.
Proof.
  intros Hok Hbit0. pose proof (used_bits_range s) as Hr.
  assert (block_store_get_free_blocks (Some s) = Done (255 - used_bits s)) as ->.
  { unfold block_store_get_free_blocks. rewrite used_blocks_count by assumption.
    run_bind. destruct (Z.eqb_spec (used_bits s) SIZE_MAX) as [Heq|_]; auto.
    unfold SIZE_MAX in Heq. lia. }
  destruct (allocate_spec s Hok)
    as (b0 & Hd & Hb0 & [[Hfail Hall]|(i & Hi & Halloc & Hclr & Hlow)]).
  - split; [|auto]. intros _. f_equal.
    assert (used_bits s = 255) as ->; [|reflexivity].
    apply used_bits_full. intros j Hj.
    rewrite (occupied_deref s b0 j Hd). apply Hall. lia.
  - rewrite Halloc. split.
    + intros [= Heq _]. unfold SIZE_MAX in Heq. lia.
    + intros [= Hfull]. assert (used_bits s = 255) as Hu by lia.
      rewrite used_bits_full in Hu.
      rewrite (occupied_deref s b0 0 Hd) in Hbit0.
      destruct (decide (i = 0)) as [->|]; [congruence|].
      rewrite <- (occupied_deref s b0 i Hd), Hu in Hclr by lia. discriminate.
Qed.

Lemma allocate_fails_iff_no_free_witness :
  block_store_allocate (Some full) = Done (SIZE_MAX, Some full)
  <-> block_store_get_free_blocks (Some full) = Done 0.
Proof.
  apply (allocate_fails_iff_no_free full); vm_compute; reflexivity.
Defined.

(** ** Writing blocks *)

Lemma write_run (s : block_store_t) (id : Z) (X : list Z) :
  id < 256 ->
  exists b,
    bitmap_import 2048 (Some X) = Some b
    /\ block_store_write (Some s) id (Some X) = Done (256, Some (store s id (Some b))).
Proof.
  intros Hid. unfold block_store_write.
  destruct (Z.geb_spec id 256); [lia|]. cbv zeta.
  unfold bitmap_import, bitmap_create. change (2048 <=? 0) with false. cbv iota.
  eexists. split; reflexivity.
Qed.

(** X9: [write(device, id, buffer)] returns 0 and leaves the device as it
    was when [id >= 256] or the buffer is null; otherwise it returns 256,
    slot [id] holds the first 256 bytes of the buffer, every other slot
    keeps its content, and the device stays live. *)
Theorem write_spec (s : block_store_t) (id : Z) (buffer : option (list Z)) :
  store_ok s = true -> 0 <= id ->
  (256 <= id \/ buffer = None -> block_store_write (Some s) id buffer = Done (0, Some s))
  /\ (forall X, buffer = Some X -> id < 256 -> (256 <= length X)%nat ->
        exists s',
          block_store_write (Some s) id buffer = Done (256, Some s')
          /\ store_ok s' = true
          /\ content s' id = take 256 X
          /\ forall k, k <> id -> content s' k = content s k).
Proof.
  intros Hok Hid. split.
  - intros [Hge| ->]; unfold block_store_write; [|reflexivity].
    destruct buffer; [|reflexivity].
    destruct (Z.geb_spec id 256); [reflexivity | lia].
  - intros X -> Hlt Hlen. unfold block_store_write.
    destruct (Z.geb_spec id 256); [lia|].
    rewrite bitmap_import_block by assumption. cbv zeta.
    pose proof Hok as [Hlen' _]%store_ok_spec.
    eexists. split; [reflexivity|]. split; [|split].
    + apply store_ok_store; auto. apply bitmap_ok_spec. simpl.
      split; [reflexivity|]. rewrite length_take. lia.
    + unfold content. rewrite deref_store_eq by lia. reflexivity.
    + intros k Hk. unfold content. now rewrite deref_store_ne.
Qed.

Lemma write_spec_witness :
  (256 <= 7 \/ Some (replicate 256 65) = None ->
     block_store_write (Some fresh) 7 (Some (replicate 256 65)) = Done (0, Some fresh))
  /\ (forall X, Some (replicate 256 65) = Some X -> 7 < 256 -> (256 <= length X)%nat ->
        exists s',
          block_store_write (Some fresh) 7 (Some (replicate 256 65)) = Done (256, Some s')
          /\ store_ok s' = true
          /\ content s' 7 = take 256 X
          /\ forall k, k <> 7 -> content s' k = content fresh k).
Proof.
  apply (write_spec fresh 7 (Some (replicate 256 65))).
  - vm_compute. reflexivity.
  - lia.
Defined.

(** X10: the last write to a block wins: writing [X] and then [Y] to the
    same block leaves the device exactly as writing [Y] alone does. *)
Theorem write_overwrite (s : block_store_t) (id : Z) (X Y : list Z) :
  id < 256 ->
  exists s1 s2,
    block_store_write (Some s) id (Some X) = Done (256, Some s1)
    /\ block_store_write (Some s1) id (Some Y) = Done (256, Some s2)
    /\ block_store_write (Some s) id (Some Y) = Done (256, Some s2).
Proof.
  intros Hid.
  destruct (write_run s id X Hid) as (bx & _ & HX).
  destruct (write_run (store s id (Some bx)) id Y Hid) as (b_y & Hy1 & HY1).
  destruct (write_run s id Y Hid) as (b_y' & Hy2 & HY2).
  assert (b_y' = b_y) as -> by congruence.
  exists (store s id (Some bx)), (store s id (Some b_y)).
  split; [exact HX|]. split; [|exact HY2].
  rewrite HY1. unfold store. simpl. now rewrite list_insert_insert_eq.
Qed.

Lemma write_overwrite_witness :
  exists s1 s2,
    block_store_write (Some fresh) 7 (Some (replicate 256 65)) = Done (256, Some s1)
    /\ block_store_write (Some s1) 7 (Some zero_block) = Done (256, Some s2)
    /\ block_store_write (Some fresh) 7 (Some zero_block) = Done (256, Some s2).
Proof.
  apply (write_overwrite fresh 7 (replicate 256 65) zero_block). lia.
Defined.

(** X11: writes to two different blocks commute: either order leaves the
    same device. *)
Theorem write_commute (s : block_store_t) (i j : Z) (X Y : list Z) :
  0 <= i < 256 -> 0 <= j < 256 -> i <> j ->
  exists s1 s2 s12,
    block_store_write (Some s) i (Some X) = Done (256, Some s1)
    /\ block_store_write (Some s1) j (Some Y) = Done (256, Some s12)
    /\ block_store_write (Some s) j (Some Y) = Done (256, Some s2)
    /\ block_store_write (Some s2) i (Some X) = Done (256, Some s12).
Proof.
  intros Hi Hj Hne.
  destruct (write_run s i X) as (bx & Hbx & HX); [lia|].
  destruct (write_run s j Y) as (b_y & Hby & HY); [lia|].
  destruct (write_run (store s i (Some bx)) j Y) as (b1 & Hb1 & HY1); [lia|].
  destruct (write_run (store s j (Some b_y)) i X) as (b2 & Hb2 & HX2); [lia|].
  assert (b1 = b_y) as -> by congruence. assert (b2 = bx) as -> by congruence.
  exists (store s i (Some bx)), (store s j (Some b_y)),
         (store (store s i (Some bx)) j (Some b_y)).
  repeat split; auto. rewrite HX2. unfold store. simpl.
  rewrite list_insert_insert_ne; auto. lia.
Qed.

Lemma write_commute_witness :
  exists s1 s2 s12,
    block_store_write (Some fresh) 0 (Some zero_block) = Done (256, Some s1)
    /\ block_store_write (Some s1) 7 (Some (replicate 256 65)) = Done (256, Some s12)
    /\ block_store_write (Some fresh) 7 (Some (replicate 256 65)) = Done (256, Some s2)
    /\ block_store_write (Some s2) 0 (Some zero_block) = Done (256, Some s12).
Proof.
  apply (write_commute fresh 0 7 zero_block (replicate 256 65)); lia.
Defined.

(** ** Sequences of calls on a live device *)

Lemma request_outside (s : block_store_t) (id : Z) :
  id <= 0 \/ 256 <= id -> block_store_request (Some s) id = Done (false, Some s).
Proof.
  intros Hid. unfold block_store_request.
  destruct (Z.gtb_spec id 0); simpl; auto.
  destruct (Z.ltb_spec id 256); simpl; auto. lia.
Qed.

Lemma step_live (s : block_store_t) (o : op) :
  store_ok s = true -> op_valid o = true ->
  exists s', step (Some s) o = Done (Some s') /\ store_ok s' = true.
Proof.
  intros Hok Hv. destruct (store_ok_deref s 0 Hok) as (b0 & Hd & Hb0); [lia|].
  destruct o as [|id|id|id buf|id buf]; cbn [step op_valid] in *.
  - destruct (allocate_spec s Hok) as (b & _ & Hb & [[-> _]|(i & _ & -> & _)]);
      run_bind; eauto using store_ok_store, bitmap_ok_set.
  - destruct (decide (0 < id < 256)) as [Hid|Hout].
    + rewrite (request_run s b0 id Hd Hid).
      destruct (bitmap_test b0 id); run_bind; eauto using store_ok_store, bitmap_ok_set.
    + rewrite request_outside by lia. run_bind. eauto.
  - destruct (decide (0 < id < 256)) as [Hid|Hout].
    + rewrite (release_run s b0 id Hd Hid).
      destruct (bitmap_test b0 id); eauto using store_ok_store, bitmap_ok_reset.
    + rewrite release_outside by lia. eauto.
  - apply andb_true_iff in Hv as [Hlo%Z.leb_le Hhi%Z.ltb_lt].
    destruct (store_ok_deref s id Hok) as (b & Hdb & _); [lia|].
    unfold block_store_read. rewrite Hdb. run_bind. eauto.
  - apply andb_true_iff in Hv as [Hlo%Z.leb_le Hlen%Nat.leb_le].
    unfold block_store_write. destruct (id >=? 256); run_bind; [eauto|].
    rewrite bitmap_import_block by assumption. cbv zeta.
    eexists. split; [reflexivity|]. apply store_ok_store; auto.
    apply bitmap_ok_spec. simpl. split; [reflexivity|]. rewrite length_take. lia.
Qed.

Lemma run_live (ops : list op) (s : block_store_t) :
  store_ok s = true -> forallb op_valid ops = true ->
  exists s', run (Some s) ops = Done (Some s') /\ store_ok s' = true.
Proof.
  revert s. induction ops as [|o ops IH]; intros s Hok Hv; [now eauto|].
  cbn [forallb] in Hv. apply andb_true_iff in Hv as [Ho Hv].
  destruct (step_live s o Hok Ho) as (s1 & Hstep & Hok1).
  cbn [run]. rewrite Hstep. run_bind. now apply IH.
Qed.



(** X13: as long as no call writes to block 0, occupancy bit 0 stays set:
    from a live device with bit 0 set, every sequence of calls within the
    contract of the functions leaves a live device with bit 0 set, and
    [allocate] never hands out id 0 on it. *)
Theorem reserved_bit_kept (ops : list op) (s : block_store_t) :
  store_ok s = true -> occupied s 0 = true ->
  forallb op_valid ops = true ->
  forallb (fun o => negb (writes_block0 o)) ops = true ->
  exists s',
    run (Some s) ops = Done (Some s')
    /\ store_ok s' = true
    /\ occupied s' 0 = true
    /\ forall bs', block_store_allocate (Some s') <> Done (0, bs').
Proof.
  intros Hok Hbit Hv Hw.
  destruct (run_live ops s Hok Hv) as (s' & Hrun & Hok').
  assert (Forall spares_block0 ops) as Hsp.
  { apply Forall_forall. intros o Ho%list_elem_of_In.
    pose proof (proj1 (forallb_forall _ _) Hv o Ho) as Hvo.
    pose proof (proj1 (forallb_forall _ _) Hw o Ho) as Hwo.
    destruct o as [| | | |id buf]; cbn [op_valid writes_block0 spares_block0] in *; auto.
    apply andb_true_iff in Hvo as [Hlo%Z.leb_le Hlen%Nat.leb_le].
    apply negb_true_iff, Z.eqb_neq in Hwo. split; lia. }
  destruct (run_keeps_bit0 ops s (Some s') Hok Hbit Hsp Hrun) as (s0 & [= <-] & _ & Hbit').
  exists s'. repeat split; auto.
  intros bs' Halloc.
  destruct (allocate_spec s' Hok')
    as (b0 & Hd & _ & [[Hfail _]|(i & _ & Hi & Hclr & _)]).
  - rewrite Hfail in Halloc. discriminate.
  - rewrite Hi in Halloc. injection Halloc as -> _.
    rewrite (occupied_deref s' b0 0 Hd) in Hbit'. congruence.
Qed.

Lemma reserved_bit_kept_witness :
  exists s',
    run (Some fresh) [Allocate; Request 7; Write 5 zero_block; Release 1; Release 0]
    = Done (Some s')
    /\ store_ok s' = true
    /\ occupied s' 0 = true
    /\ forall bs', block_store_allocate (Some s') <> Done (0, bs').
Proof.
  apply (reserved_bit_kept
           [Allocate; Request 7; Write 5 zero_block; Release 1; Release 0] fresh);
    vm_compute; reflexivity.
Defined.

(** ** Creation *)

(** X14: [create] returns a live device on which bit 0 is the only set bit
    of the bitmap, every slot other than slot 0 holds 256 zero bytes,
    [used_count] is 0 and [free_count] is 255. *)
Theorem create_spec :
  exists s,
    block_store_create = Done (Some s)
    /\ store_ok s = true
    /\ (forall j, 0 <= j < 2048 -> occupied s j = (j =? 0))
    /\ (forall k, 0 < k < 256 -> content s k = zero_block)
    /\ block_store_get_used_blocks (Some s) = Done 0
    /\ block_store_get_free_blocks (Some s) = Done 255.
Proof.
  exists fresh. destruct store_ok_fresh as [Hc Hok].
  split; [exact Hc|]. split; [exact Hok|]. split; [|split].
  - assert (forallb (fun j => Bool.eqb (occupied fresh j) (j =? 0)) (seqZ 0 2048) = true)
      as Hall by (vm_compute; reflexivity).
    intros j Hj. apply eqb_prop.
    apply (proj1 (forallb_forall _ _) Hall), list_elem_of_In, elem_of_seqZ. lia.
  - assert (forallb (fun k => bool_decide (content fresh k = zero_block)) (seqZ 1 255) = true)
      as Hall by (vm_compute; reflexivity).
    intros k Hk. eapply bool_decide_eq_true_1.
    apply (proj1 (forallb_forall _ _) Hall), list_elem_of_In, elem_of_seqZ. lia.
  - split; vm_compute; reflexivity.
Qed.

(** ** The file format *)

Lemma image_cons (b : bitmap_t) (l : list (option bitmap_t)) :
  length (data b) = 256%nat -> image (Some b :: l) = data b ++ image l.
Proof.
  intros Hlen. unfold image. cbn [map concat block_bytes].
  unfold bitmap_export. now rewrite take_ge by lia.
Qed.



Lemma store_ok_entries (s : block_store_t) :
  store_ok s = true ->
  Forall (fun p => exists b, p = Some b /\ bitmap_ok b = true) (bmp s).
Proof.
  intros [_ Hall]%store_ok_spec. apply Forall_forall.
  intros p [i Hi]%list_elem_of_lookup_1. eauto.
Qed.

Lemma serialize_run (s : block_store_t) (name : string) (fs : gmap string (list Z)) :
  store_ok s = true ->
  block_store_serialize (Some s) (Some name) fs
  = Done (65536, <[name := image (bmp s)]> fs).
Proof.
  intros Hok. pose proof Hok as [Hlen _]%store_ok_spec.
  pose proof (store_ok_entries s Hok) as Hbmp.
  assert (serialize_loop 256 s 0 0 [] = Done (Some 65536, image (bmp s))) as Hser.
  { rewrite <- Hlen at 1. rewrite (serialize_loop_spec s (bmp s) []); auto.
    - now rewrite Hlen.
    - eapply Forall_impl; [exact Hbmp|]. intros p (b & -> & _). eauto. }
  unfold block_store_serialize. cbv zeta.
  rewrite lookup_insert_eq, Hser. run_bind. now rewrite insert_insert_eq.
Qed.



(** ** Reading a file back *)

(** What [read(fd, buffer, 256)] leaves: a buffer of the same 256 bytes'
    length, and the rest of the file. *)
Lemma sys_read_block (rest buffer : list Z) :
  length buffer = 256%nat ->
  exists m buffer',
    sys_read rest buffer 256 = (m, buffer', drop (Z.to_nat m) rest)
    /\ 0 <= m <= 256
    /\ m = Z.min 256 (Z.of_nat (length rest))
    /\ buffer' = take (Z.to_nat m) rest ++ drop (Z.to_nat m) buffer
    /\ length buffer' = 256%nat.
Proof.
  intros Hlen. unfold sys_read, memcpy.
  set (m := Z.min 256 (Z.of_nat (length rest))).
  exists m, (take (Z.to_nat m) rest ++ drop (Z.to_nat m) buffer).
  assert (0 <= m <= 256) by lia.
  repeat split; auto; try lia.
  rewrite length_app, length_take, length_drop. lia.
Qed.

Lemma deserialize_loop_blocks (uninit : Z -> list Z) (n : nat) :
  (forall k, length (uninit k) = 256%nat) ->
  forall (pre old : list (option bitmap_t)) (d : block_store_t) (i : Z) (rest : list Z),
    bmp d = pre ++ old -> (n <= length old)%nat ->
    Z.of_nat (length pre) = i -> i + Z.of_nat n <= 256 ->
    deserialize_loop n (Some d) i rest uninit
    = Done (Some {| bmp := pre ++ blocks_read n i rest uninit ++ drop n old |}).
Proof.
  intros Hbuf. induction n as [|n IH]; intros pre old d i rest Hbmp Hlen Hi Hfit.
  - simpl. rewrite drop_0. destruct d as [m]. simpl in *. now subst.
  - destruct old as [|o old]; [simpl in Hlen; lia|].
    cbn [length] in Hlen. cbn [deserialize_loop blocks_read].
    destruct (sys_read_block rest (uninit i) (Hbuf i))
      as (m & buffer & -> & Hm & _ & _ & Hblen).
    destruct (Z.ltb_spec m 0); [lia|].
    unfold block_store_write. destruct (Z.geb_spec i 256); [lia|].
    rewrite bitmap_import_block by lia. cbv zeta. run_bind.
    change (256 =? 256) with true. cbn [negb].
    rewrite (IH (pre ++ [Some {| bit_count := 2048; data := take 256 buffer |}]) old).
    + rewrite <- app_assoc. reflexivity.
    + unfold store. simpl. rewrite Hbmp, <- Hi, Nat2Z.id.
      rewrite <- app_assoc. simpl.
      replace (length pre) with (length pre + 0)%nat at 1 by lia.
      now rewrite insert_app_r.
    + lia.
    + rewrite length_app. simpl. lia.
    + lia.
Qed.

Lemma deserialize_run (name : string) (fs : gmap string (list Z))
    (file : list Z) (uninit : Z -> list Z) :
  fs !! name = Some file -> (forall k, length (uninit k) = 256%nat) ->
  block_store_deserialize (Some name) fs uninit
  = Done (Some {| bmp := blocks_read 256 0 file uninit |}).
Proof.
  intros Hfile Hbuf. unfold block_store_deserialize. rewrite Hfile.
  destruct store_ok_fresh as [-> [Hflen _]%store_ok_spec]. run_bind.
  rewrite (deserialize_loop_blocks uninit 256 Hbuf [] (bmp fresh) fresh 0 file eq_refl);
    [|lia|reflexivity|lia].
  rewrite drop_ge by lia. now rewrite app_nil_r.
Qed.

Lemma blocks_read_ok (uninit : Z -> list Z) (n : nat) (i : Z) (rest : list Z) :
  (forall k, length (uninit k) = 256%nat) ->
  length (blocks_read n i rest uninit) = n
  /\ Forall (fun p => exists b, p = Some b /\ bitmap_ok b = true)
            (blocks_read n i rest uninit).
Proof.
  intros Hbuf. revert i rest. induction n as [|n IH]; intros i rest.
  - split; [reflexivity | constructor].
  - cbn [blocks_read].
    destruct (sys_read_block rest (uninit i) (Hbuf i))
      as (m & buffer & -> & _ & _ & _ & Hblen).
    destruct (IH (i + 1) (drop (Z.to_nat m) rest)) as [Hlen Hall].
    split; [cbn [length]; now rewrite Hlen|].
    constructor; [|exact Hall]. eexists. split; [reflexivity|].
    apply bitmap_ok_spec. simpl. split; [reflexivity|].
    rewrite length_take. lia.
Qed.

(** A block that lies inside the file is read from the file. *)
Lemma blocks_read_inside (uninit : Z -> list Z) (n : nat) :
  (forall k, length (uninit k) = 256%nat) ->
  forall (j : nat) (i : Z) (rest : list Z),
    (j < n)%nat -> (256 * (j + 1) <= length rest)%nat ->
    blocks_read n i rest uninit !! j
    = Some (Some {| bit_count := 2048; data := take 256 (drop (256 * j) rest) |}).
Proof.
  intros Hbuf. induction n as [|n IH]; intros j i rest Hj Hlen; [lia|].
  cbn [blocks_read].
  destruct (sys_read_block rest (uninit i) (Hbuf i))
    as (m & buffer & -> & _ & Hm & -> & _).
  assert (m = 256) as -> by lia. change (Z.to_nat 256) with 256%nat.
  destruct j as [|j]; simpl lookup.
  - rewrite Nat.mul_0_r, drop_0, take_app_le by (rewrite length_take; lia).
    now rewrite take_take.
  - rewrite IH by (rewrite ?length_drop; lia). rewrite drop_drop.
    replace (256 * S j)%nat with (256 + 256 * j)%nat by lia. reflexivity.
Qed.

(** A block that lies past the end of the file is whatever the buffer
    held. *)
Lemma blocks_read_beyond (uninit : Z -> list Z) (n : nat) :
  (forall k, length (uninit k) = 256%nat) ->
  forall (j : nat) (i : Z) (rest : list Z),
    (j < n)%nat -> (length rest <= 256 * j)%nat ->
    blocks_read n i rest uninit !! j
    = Some (Some {| bit_count := 2048; data := uninit (i + Z.of_nat j) |}).
Proof.
  intros Hbuf. induction n as [|n IH]; intros j i rest Hj Hlen; [lia|].
  cbn [blocks_read].
  destruct (sys_read_block rest (uninit i) (Hbuf i))
    as (m & buffer & -> & _ & Hm & -> & _).
  destruct j as [|j]; simpl lookup.
  - assert (m = 0) as -> by lia. change (Z.to_nat 0) with 0%nat.
    rewrite take_0, drop_0, app_nil_l.
    rewrite Z.add_0_r, take_ge by (rewrite Hbuf; lia). reflexivity.
  - rewrite IH by (rewrite ?length_drop; lia).
    replace (i + 1 + Z.of_nat j) with (i + Z.of_nat (S j)) by lia. reflexivity.
Qed.

(** The blocks read from a file that is long enough are the file. *)
Lemma blocks_read_image (uninit : Z -> list Z) (n : nat) :
  (forall k, length (uninit k) = 256%nat) ->
  forall (i : Z) (rest : list Z),
    (256 * n <= length rest)%nat ->
    image (blocks_read n i rest uninit) = take (256 * n) rest.
Proof.
  intros Hbuf. induction n as [|n IH]; intros i rest Hlen.
  - now rewrite Nat.mul_0_r, take_0.
  - cbn [blocks_read].
    destruct (sys_read_block rest (uninit i) (Hbuf i))
      as (m & buffer & -> & _ & Hm & -> & _).
    assert (m = 256) as -> by lia. change (Z.to_nat 256) with 256%nat.
    rewrite take_app_le by (rewrite length_take; lia). rewrite take_take.
    rewrite image_cons by (simpl; rewrite length_take; lia). simpl data.
    rewrite IH by (rewrite length_drop; lia).
    change (Init.Nat.min 256 256) with 256%nat.
    rewrite take_take_drop. f_equal. lia.
Qed.

Lemma content_entry (l : list (option bitmap_t)) (k : Z) (b : bitmap_t) :
  0 <= k -> l !! Z.to_nat k = Some (Some b) -> content {| bmp := l |} k = data b.
Proof.
  intros Hk Hl. unfold content, deref. simpl.
  destruct (Z.ltb_spec k 0); [lia|]. now rewrite Hl.
Qed.

(** X16: [deserialize] returns null for a null file name and for a file
    that does not exist.  For a file that exists it returns a live device,
    however short the file is: a block that lies inside the file holds the
    bytes [256 k, 256 k + 256) of the file, and a block that lies past the
    end of the file holds whatever the uninitialised buffer held; a short
    file is not detected. *)
Theorem deserialize_spec (fs : gmap string (list Z)) (name : string)
    (uninit : Z -> list Z) :
  (forall k, length (uninit k) = 256%nat) ->
  block_store_deserialize None fs uninit = Done None
  /\ (fs !! name = None -> block_store_deserialize (Some name) fs uninit = Done None)
  /\ (forall file, fs !! name = Some file ->
        exists s,
          block_store_deserialize (Some name) fs uninit = Done (Some s)
          /\ store_ok s = true
          /\ (forall k, 0 <= k < 256 -> 256 * (k + 1) <= Z.of_nat (length file) ->
                content s k = take 256 (drop (Z.to_nat (256 * k)) file))
          /\ (forall k, 0 <= k < 256 -> Z.of_nat (length file) <= 256 * k ->
                content s k = uninit k)).
Proof.
  intros Hbuf. split; [reflexivity|]. split.
  { intros Hnone. unfold block_store_deserialize. now rewrite Hnone. }
  intros file Hfile. eexists.
  split; [exact (deserialize_run name fs file uninit Hfile Hbuf)|].
  destruct (blocks_read_ok uninit 256 0 file Hbuf) as [Hlen Hall].
  split; [|split].
  - apply store_ok_spec. cbn [bmp]. split; [exact Hlen|].
    intros i p Hp. apply (proj1 (Forall_forall _ _) Hall).
    now apply list_elem_of_lookup_2 in Hp.
  - intros k Hk Hin.
    rewrite (content_entry _ k {| bit_count := 2048;
                                  data := take 256 (drop (256 * Z.to_nat k) file) |}).
    + cbn [data]. f_equal. f_equal. lia.
    + lia.
    + apply blocks_read_inside; auto; lia.
  - intros k Hk Hout.
    rewrite (content_entry _ k {| bit_count := 2048; data := uninit k |}); auto; [lia|].
    rewrite (blocks_read_beyond uninit 256 Hbuf (Z.to_nat k) 0 file) by lia.
    replace (0 + Z.of_nat (Z.to_nat k)) with k by lia. reflexivity.
Qed.

Lemma deserialize_spec_witness :
  block_store_deserialize None (<["short.bs"%string := replicate 300 7]> ∅)
                          (fun _ => zero_block) = Done None
  /\ ((<["short.bs"%string := replicate 300 7]> ∅ : gmap string (list Z))
        !! "short.bs"%string = None ->
      block_store_deserialize (Some "short.bs"%string)
        (<["short.bs"%string := replicate 300 7]> ∅) (fun _ => zero_block) = Done None)
  /\ (forall file,
        (<["short.bs"%string := replicate 300 7]> ∅ : gmap string (list Z))
          !! "short.bs"%string = Some file ->
        exists s,
          block_store_deserialize (Some "short.bs"%string)
            (<["short.bs"%string := replicate 300 7]> ∅) (fun _ => zero_block)
          = Done (Some s)
          /\ store_ok s = true
          /\ (forall k, 0 <= k < 256 -> 256 * (k + 1) <= Z.of_nat (length file) ->
                content s k = take 256 (drop (Z.to_nat (256 * k)) file))
          /\ (forall k, 0 <= k < 256 -> Z.of_nat (length file) <= 256 * k ->
                content s k = (fun _ => zero_block) k)).
Proof.
  apply (deserialize_spec (<["short.bs"%string := replicate 300 7]> ∅)
                          "short.bs"%string (fun _ => zero_block)).
  intros k. reflexivity.
Defined.

(** X17: a file of at least 65536 bytes, read by [deserialize] and written
    out again by [serialize], comes back byte for byte in its first 65536
    bytes. *)
Theorem deserialize_then_serialize (fs fs2 : gmap string (list Z))
    (name name2 : string) (file : list Z) (uninit : Z -> list Z) :
  (forall k, length (uninit k) = 256%nat) ->
  fs !! name = Some file -> 65536 <= Z.of_nat (length file) ->
  exists s fs',
    block_store_deserialize (Some name) fs uninit = Done (Some s)
    /\ block_store_serialize (Some s) (Some name2) fs2 = Done (65536, fs')
    /\ fs' !! name2 = Some (take (256 * 256) file).
Proof.
  intros Hbuf Hfile Hlen.
  destruct (blocks_read_ok uninit 256 0 file Hbuf) as [Hblen Hall].
  assert (store_ok {| bmp := blocks_read 256 0 file uninit |} = true) as Hok.
  { apply store_ok_spec. cbn [bmp]. split; [exact Hblen|].
    intros i p Hp. apply (proj1 (Forall_forall _ _) Hall).
    now apply list_elem_of_lookup_2 in Hp. }
  do 2 eexists. split; [exact (deserialize_run name fs file uninit Hfile Hbuf)|].
  split; [exact (serialize_run _ name2 fs2 Hok)|].
  rewrite lookup_insert_eq. cbn [bmp]. f_equal.
  apply blocks_read_image; auto. lia.
Qed.

Lemma deserialize_then_serialize_witness :
  exists s fs',
    block_store_deserialize (Some "in.bs"%string)
      (<["in.bs"%string := replicate (256 * 256) 9]> ∅) (fun _ => zero_block)
    = Done (Some s)
    /\ block_store_serialize (Some s) (Some "out.bs"%string) ∅ = Done (65536, fs')
    /\ fs' !! "out.bs"%string = Some (take (256 * 256) (replicate (256 * 256) 9)).
Proof.
  apply (deserialize_then_serialize
           (<["in.bs"%string := replicate (256 * 256) 9]> ∅) ∅
           "in.bs"%string "out.bs"%string (replicate (256 * 256) 9)
           (fun _ => zero_block)).
  - intros k. reflexivity.
  - apply lookup_insert_eq.
  - rewrite length_replicate. lia.
Defined.

(** ** Repeated allocation *)

(** What a successful [allocate] does to the occupancy bits. *)
Lemma allocate_step (s : block_store_t) :
  store_ok s = true ->
  exists id bs',
    block_store_allocate (Some s) = Done (id, bs')
    /\ ((id = SIZE_MAX /\ bs' = Some s)
        \/ exists s',
             bs' = Some s' /\ store_ok s' = true /\ 0 <= id < 256
             /\ occupied s id = false /\ occupied s' id = true
             /\ forall j, 0 <= j -> j <> id -> occupied s' j = occupied s j).
Proof.
  intros Hok.
  destruct (allocate_spec s Hok)
    as (b0 & Hd & Hb0 & [[Hfail _]|(i & Hi & Halloc & Hclr & _)]).
  { exists SIZE_MAX, (Some s). eauto. }
  exists i, (Some (store s 0 (Some (bitmap_set b0 i)))).
  split; [exact Halloc|]. right. eexists. split; [reflexivity|].
  split; [now apply store_ok_store, bitmap_ok_set|]. split; [exact Hi|].
  split; [now rewrite (occupied_deref s b0 i Hd)|]. split.
  - rewrite occupied_store_0 by assumption.
    apply bitmap_test_set_eq, byte_index_lt.
    apply bitmap_ok_spec in Hb0 as [_ ->]. lia.
  - intros j Hj Hne. rewrite occupied_store_0 by assumption.
    rewrite (occupied_deref s b0 j Hd). apply bitmap_test_set_ne; auto; lia.
Qed.

(** X18: [allocate] never hands out an id twice: in any number of calls in
    a row on a live device, the ids returned other than [SIZE_MAX] are
    pairwise distinct, each lies in [0, 256), each was free before the first
    call and is in use after the last. *)
Theorem allocate_many_distinct (n : nat) (s : block_store_t) :
  store_ok s = true ->
  exists ids s',
    allocate_many n (Some s) = Done (ids, Some s')
    /\ store_ok s' = true
    /\ length ids = n
    /\ NoDup (filter (fun id => id <> SIZE_MAX) ids)
    /\ (forall id, id ∈ ids -> id <> SIZE_MAX ->
          0 <= id < 256 /\ occupied s id = false /\ occupied s' id = true)
    /\ (forall j, 0 <= j -> occupied s j = true -> occupied s' j = true).
Proof.
  revert s. induction n as [|n IH]; intros s Hok.
  - exists [], s. split; [reflexivity|]. split; [exact Hok|]. split; [reflexivity|].
    split; [rewrite filter_nil; apply NoDup_nil_2|].
    split; [intros id Hid; inversion Hid | auto].
  - destruct (allocate_step s Hok) as (id & bs1 & Halloc & Hcase).
    cbn [allocate_many]. rewrite Halloc. run_bind.
    destruct Hcase as [[-> ->]|(s1 & -> & Hok1 & Hid & Hclr & Hset & Hsame)].
    + destruct (IH s Hok) as (ids & s' & -> & Hok' & Hlen & Hnd & Hids & Hmono).
      run_bind. exists (SIZE_MAX :: ids), s'.
      split; [reflexivity|]. split; [exact Hok'|].
      split; [cbn [length]; now rewrite Hlen|]. split.
      { rewrite filter_cons. now rewrite decide_False by tauto. }
      split; [|exact Hmono].
      intros id [->|Hin]%elem_of_cons Hne; [congruence | now apply Hids].
    + destruct (IH s1 Hok1) as (ids & s' & -> & Hok' & Hlen & Hnd & Hids & Hmono).
      run_bind. exists (id :: ids), s'.
      assert (id <> SIZE_MAX) as Hne by (unfold SIZE_MAX; lia).
      split; [reflexivity|]. split; [exact Hok'|].
      split; [cbn [length]; now rewrite Hlen|]. split; [|split].
      * rewrite filter_cons, decide_True by assumption. constructor; [|exact Hnd].
        intros [_ Hin]%list_elem_of_filter.
        destruct (Hids id Hin Hne) as (_ & Hclr1 & _). congruence.
      * intros id' [->|Hin]%elem_of_cons Hne'.
        { split; [exact Hid|]. split; [exact Hclr|]. apply Hmono; [lia | exact Hset]. }
        destruct (Hids id' Hin Hne') as (Hr & Hclr1 & Hset1).
        split; [exact Hr|]. split; [|exact Hset1].
        rewrite <- Hsame; [exact Hclr1 | lia | congruence].
      * intros j Hj Hj1. apply Hmono; [exact Hj|].
        destruct (decide (j = id)) as [->|Hji]; [exact Hset|].
        now rewrite Hsame.
Qed.

Lemma allocate_many_distinct_witness :
  exists ids s',
    allocate_many 3 (Some requested10) = Done (ids, Some s')
    /\ store_ok s' = true
    /\ length ids = 3%nat
    /\ NoDup (filter (fun id => id <> SIZE_MAX) ids)
    /\ (forall id, id ∈ ids -> id <> SIZE_MAX ->
          0 <= id < 256 /\ occupied requested10 id = false /\ occupied s' id = true)
    /\ (forall j, 0 <= j -> occupied requested10 j = true -> occupied s' j = true).
Proof.
  apply (allocate_many_distinct 3 requested10). vm_compute. reflexivity.
Defined.

(** X19: an id given back by [release] can be requested again at once:
    for every id in (0, 256), [request] right after [release] succeeds. *)
Theorem release_then_request (s : block_store_t) (id : Z) :
  store_ok s = true -> 0 < id < 256 ->
  exists s1 s2,
    block_store_release (Some s) id = Done (Some s1)
    /\ block_store_request (Some s1) id = Done (true, Some s2)
    /\ occupied s2 id = true.
Proof.
  intros Hok Hid. destruct (store_ok_deref s 0 Hok) as (b0 & Hd & Hb0); [lia|].
  assert (forall b, bitmap_ok b = true -> bitmap_test b id = false ->
            forall t, store_ok t = true -> deref t 0 = Done b ->
            exists s2, block_store_request (Some t) id = Done (true, Some s2)
                       /\ occupied s2 id = true) as Hreq.
  { intros b Hb Hclr t Hokt Hdt. rewrite (request_run t b id Hdt Hid), Hclr.
    eexists. split; [reflexivity|]. rewrite occupied_store_0 by assumption.
    apply bitmap_test_set_eq, byte_index_lt.
    apply bitmap_ok_spec in Hb as [_ ->]. lia. }
  rewrite (release_run s b0 id Hd Hid). destruct (bitmap_test b0 id) eqn:Ht.
  - destruct (Hreq (bitmap_reset b0 id)) with (t := store s 0 (Some (bitmap_reset b0 id)))
      as (s2 & Hr & Ho);
      auto using bitmap_ok_reset, bitmap_test_reset_eq, store_ok_store, deref_store_0.
    eauto.
  - destruct (Hreq b0 Hb0 Ht s Hok Hd) as (s2 & Hr & Ho). eauto.
Qed.

Lemma release_then_request_witness :
  exists s1 s2,
    block_store_release (Some requested100) 100 = Done (Some s1)
    /\ block_store_request (Some s1) 100 = Done (true, Some s2)
    /\ occupied s2 100 = true.
Proof.
  apply (release_then_request requested100 100).
  - vm_compute. reflexivity.
  - lia.
Defined.
